(** * sensu-microsoft-teams-handler: the handler's pipeline, embedded in Rocq

    The handler reads one Sensu event from standard input, validates it,
    composes a Microsoft Teams message card and posts it to a webhook.

    The development has three layers:
    - [strings], [url] and [gopath]: the fragments of Go's [strings],
      [net/url] and [path] packages that [getLink], [http.NewRequest] and
      the event's [URIPath] go through, over byte strings ([string] is a
      list of 8-bit [ascii], as a Go string is a sequence of bytes);
    - [Handler]: the handler itself ([getColor], [getMessageStatus],
      [getLink], [NewEventMessage], [sendMessage], [run], [main]), with the
      package-level configuration variables gathered in a record, the
      collaborators from [sensu-go/types] and [encoding/json] behind a type
      class, and standard input and the network behind a [World];
    - the properties. *)

From Stdlib Require Import Bool Arith NArith ZArith List Ascii String Lia.
Import ListNotations.

Open Scope string_scope.

(** ** Bytes

    A Go [byte] is an [ascii]: eight bits. *)

Definition byte_val (c : ascii) : N := N_of_ascii c.

(** [lo <= c && c <= hi] on bytes. *)
Definition between (lo c hi : ascii) : bool :=
  ((byte_val lo <=? byte_val c) && (byte_val c <=? byte_val hi))%N.

Definition is_letter (c : ascii) : bool :=
  between "a" c "z" || between "A" c "Z".

Definition is_digit (c : ascii) : bool := between "0" c "9".

(** Membership of a byte in a [case] list. *)
Definition one_of (c : ascii) (cs : list ascii) : bool :=
  existsb (Ascii.eqb c) cs.

(** The double quote, which a string literal cannot hold undoubled. *)
Definition dquote : ascii := "034"%char.

(** ** Go's [strings] package, the functions used below *)

Module strings.

(** [strings.HasPrefix]: [s] begins with [pre]. *)
Fixpoint HasPrefix (s pre : string) {struct pre} : bool :=
  match pre, s with
  | EmptyString, _ => true
  | String _ _, EmptyString => false
  | String p pre', String c s' => Ascii.eqb c p && HasPrefix s' pre'
  end.

(** [s[i:]] *)
Fixpoint drop (i : nat) (s : string) : string :=
  match i, s with
  | O, _ => s
  | S _, EmptyString => EmptyString
  | S i', String _ s' => drop i' s'
  end.

(** [s[:i]] *)
Fixpoint take (i : nat) (s : string) : string :=
  match i, s with
  | O, _ => EmptyString
  | S _, EmptyString => EmptyString
  | S i', String c s' => String c (take i' s')
  end.

Definition HasSuffix (s suf : string) : bool :=
  Nat.leb (String.length suf) (String.length s)
  && String.eqb (drop (String.length s - String.length suf) s) suf.

Fixpoint index_from (i : nat) (s sep : string) : option nat :=
  if HasPrefix s sep then Some i
  else match s with
       | EmptyString => None
       | String _ s' => index_from (S i) s' sep
       end.

(** [strings.Index]: [None] stands for -1. *)
Definition Index (s sep : string) : option nat := index_from 0 s sep.

Fixpoint last_index_from (i : nat) (s sep : string) : option nat :=
  let here := if HasPrefix s sep then Some i else None in
  match s with
  | EmptyString => here
  | String _ s' =>
      match last_index_from (S i) s' sep with
      | Some j => Some j
      | None => here
      end
  end.

(** [strings.LastIndex] *)
Definition LastIndex (s sep : string) : option nat := last_index_from 0 s sep.

Definition Contains (s sub : string) : bool :=
  match Index s sub with Some _ => true | None => false end.

(** [strings.Count] for a separator of one byte. *)
Fixpoint CountByte (s : string) (c : ascii) : nat :=
  match s with
  | EmptyString => 0
  | String d s' => (if Ascii.eqb d c then 1 else 0) + CountByte s' c
  end.

Definition TrimPrefix (s pre : string) : string :=
  if HasPrefix s pre then drop (String.length pre) s else s.

Definition TrimSuffix (s suf : string) : string :=
  if HasSuffix s suf then take (String.length s - String.length suf) s else s.

(** [strings.Split] for a separator of one byte: never the empty list. *)
Fixpoint Split (s : string) (sep : ascii) : list string :=
  match s with
  | EmptyString => [EmptyString]
  | String c s' =>
      if Ascii.eqb c sep then EmptyString :: Split s' sep
      else match Split s' sep with
           | h :: t => String c h :: t
           | [] => [String c EmptyString]
           end
  end.

Fixpoint Join (elems : list string) (sep : string) : string :=
  match elems with
  | [] => EmptyString
  | [e] => e
  | e :: rest => e ++ sep ++ Join rest sep
  end.

Definition lower_byte (c : ascii) : ascii :=
  if between "A" c "Z" then ascii_of_N (byte_val c + 32) else c.

(** [strings.ToLower] on ASCII input (all [url.Parse] gives it: a scheme
    is made of ASCII letters, digits, [+], [-] and [.]). *)
Fixpoint ToLower (s : string) : string :=
  match s with
  | EmptyString => EmptyString
  | String c s' => String (lower_byte c) (ToLower s')
  end.

End strings.

(** ** Go's [net/url] package: [Parse], [ResolveReference], [String]

    [getLink] parses two strings with [url.Parse], resolves one against the
    other with [ResolveReference] and prints the result with [String];
    [http.NewRequest] parses the webhook URL with [url.Parse].  The package
    is modelled as of Go 1.13, function by function. *)

Module url.

(** What [parse] and its helpers fail with. *)
Inductive parse_error : Type :=
| ErrControlCharacter            (* "net/url: invalid control character in URL" *)
| ErrEmptyURL                    (* "empty url" *)
| ErrMissingScheme               (* "missing protocol scheme" *)
| ErrInvalidRequestURI           (* "invalid URI for request" *)
| ErrFirstSegmentColon           (* "first path segment in URL cannot contain colon" *)
| ErrMissingBracket              (* "missing ']' in host" *)
| ErrInvalidPort (colonPort : string)   (* "invalid port %q after host" *)
| ErrInvalidUserinfo             (* "net/url: invalid userinfo" *)
| EscapeError (s : string)       (* "invalid URL escape %q" *)
| InvalidHostError (s : string). (* "invalid character %q in host name" *)

(** A Go result pair [(value, error)] of which exactly one is set. *)
Inductive res (A : Type) : Type :=
| Ok (a : A)
| Err (e : parse_error).
Arguments Ok {A} a.
Arguments Err {A} e.

Definition bind {A B : Type} (r : res A) (k : A -> res B) : res B :=
  match r with
  | Ok a => k a
  | Err e => Err e
  end.

Notation "x <- r ;; k" := (bind r (fun x => k))
  (at level 61, r at next level, right associativity).

Inductive encoding : Type :=
| encodePath
| encodePathSegment
| encodeHost
| encodeZone
| encodeUserPassword
| encodeQueryComponent
| encodeFragment.

Definition host_or_zone (mode : encoding) : bool :=
  match mode with
  | encodeHost | encodeZone => true
  | _ => false
  end.

Definition is_mode_host (mode : encoding) : bool :=
  match mode with encodeHost => true | _ => false end.

Definition is_mode_zone (mode : encoding) : bool :=
  match mode with encodeZone => true | _ => false end.

Definition is_mode_query (mode : encoding) : bool :=
  match mode with encodeQueryComponent => true | _ => false end.

Definition ishex (c : ascii) : bool :=
  is_digit c || between "a" c "f" || between "A" c "F".

Definition unhex (c : ascii) : N :=
  if is_digit c then byte_val c - byte_val "0"
  else if between "a" c "f" then byte_val c - byte_val "a" + 10
  else if between "A" c "F" then byte_val c - byte_val "A" + 10
  else 0.

(** [unhex(a)<<4 | unhex(b)] *)
Definition hex_byte (a b : ascii) : ascii :=
  ascii_of_N (N.lor (N.shiftl (unhex a) 4) (unhex b)).

(** [shouldEscape]: whether byte [c] must be percent-escaped when it
    appears in the part of a URL that [mode] names. *)
Definition shouldEscape (c : ascii) (mode : encoding) : bool :=
  if is_letter c || is_digit c then false
  else if host_or_zone mode
          && one_of c ["!"; "$"; "&"; "'"; "("; ")"; "*"; "+"; ","; ";";
                       "="; ":"; "["; "]"; "<"; ">"; dquote]%char
  then false
  else if one_of c ["-"; "_"; "."; "~"]%char then false
  else if one_of c ["$"; "&"; "+"; ","; "/"; ":"; ";"; "="; "?"; "@"]%char
  then match mode with
       | encodePath => Ascii.eqb c "?"
       | encodePathSegment =>
           Ascii.eqb c "/" || Ascii.eqb c ";" || Ascii.eqb c ","
           || Ascii.eqb c "?"
       | encodeUserPassword =>
           Ascii.eqb c "@" || Ascii.eqb c "/" || Ascii.eqb c "?"
           || Ascii.eqb c ":"
       | encodeQueryComponent => true
       | encodeFragment => false
       | encodeHost | encodeZone => true
       end
  else match mode with
       | encodeFragment => negb (one_of c ["!"; "("; ")"; "*"]%char)
       | _ => true
       end.

(** First loop of [unescape]: counts the [%] and checks that every escape
    is well formed and allowed in [mode]; [n] and [hasPlus] are the
    loop's two variables. *)
Fixpoint unescape_check (mode : encoding) (s : string) (n : nat)
    (hasPlus : bool) : res (nat * bool) :=
  match s with
  | EmptyString => Ok (n, hasPlus)
  | String c s1 =>
      if Ascii.eqb c "%" then
        match s1 with
        | String a (String b s3) =>
            if negb (ishex a) || negb (ishex b) then
              Err (EscapeError (strings.take 3 s))
            else if is_mode_host mode && (unhex a <? 8)%N
                    && negb (String.eqb (strings.take 3 s) "%25") then
              Err (EscapeError (strings.take 3 s))
            else if is_mode_zone mode
                    && negb (String.eqb (strings.take 3 s) "%25")
                    && negb (Ascii.eqb (hex_byte a b) " ")
                    && shouldEscape (hex_byte a b) encodeHost then
              Err (EscapeError (strings.take 3 s))
            else unescape_check mode s3 (S n) hasPlus
        | _ => Err (EscapeError (strings.take 3 s))
        end
      else if Ascii.eqb c "+" then
        unescape_check mode s1 n (is_mode_query mode)
      else if host_or_zone mode && (byte_val c <? 128)%N
              && shouldEscape c encodeHost then
        Err (InvalidHostError (String c EmptyString))
      else unescape_check mode s1 n hasPlus
  end.

(** Second loop of [unescape]: writes the decoded bytes.  It runs only on
    a string that passed the first loop, so that two bytes follow every
    [%]. *)
Fixpoint unescape_write (mode : encoding) (s : string) : string :=
  match s with
  | EmptyString => EmptyString
  | String c s1 =>
      if Ascii.eqb c "%" then
        match s1 with
        | String a (String b s3) =>
            String (hex_byte a b) (unescape_write mode s3)
        | _ => EmptyString
        end
      else if Ascii.eqb c "+" then
        String (if is_mode_query mode then " " else "+")%char
               (unescape_write mode s1)
      else String c (unescape_write mode s1)
  end.

Definition unescape (s : string) (mode : encoding) : res string :=
  r <- unescape_check mode s 0 false ;;
  let '(n, hasPlus) := r in
  if (n =? 0)%nat && negb hasPlus then Ok s
  else Ok (unescape_write mode s).

Definition upperhex : string := "0123456789ABCDEF".

Definition hex_digit (n : N) : ascii :=
  match String.get (N.to_nat n) upperhex with
  | Some d => d
  | None => "0"%char
  end.

(** First loop of [escape]: [(spaceCount, hexCount)]. *)
Fixpoint escape_count (mode : encoding) (s : string) : nat * nat :=
  match s with
  | EmptyString => (0, 0)
  | String c s' =>
      let '(spaceCount, hexCount) := escape_count mode s' in
      if shouldEscape c mode then
        if Ascii.eqb c " " && is_mode_query mode
        then (S spaceCount, hexCount)
        else (spaceCount, S hexCount)
      else (spaceCount, hexCount)
  end.

Fixpoint escape_write (mode : encoding) (s : string) : string :=
  match s with
  | EmptyString => EmptyString
  | String c s' =>
      if shouldEscape c mode then
        if Ascii.eqb c " " && is_mode_query mode
        then String "+" (escape_write mode s')
        else String "%"
               (String (hex_digit (N.shiftr (byte_val c) 4))
                  (String (hex_digit (N.land (byte_val c) 15))
                     (escape_write mode s')))
      else String c (escape_write mode s')
  end.

Definition escape (s : string) (mode : encoding) : string :=
  let '(spaceCount, hexCount) := escape_count mode s in
  if (spaceCount =? 0)%nat && (hexCount =? 0)%nat then s
  else escape_write mode s.

(** [url.Userinfo] and [url.URL]; a nil [*Userinfo] is [None]. *)
Record Userinfo : Type := mkUserinfo {
  username : string;
  password : string;
  passwordSet : bool
}.

Record URL : Type := mkURL {
  Scheme : string;
  Opaque : string;
  User : option Userinfo;
  Host : string;
  Path : string;
  RawPath : string;
  ForceQuery : bool;
  RawQuery : string;
  Fragment : string
}.

(** [new(URL)] *)
Definition zero : URL := mkURL "" "" None "" "" "" false "" "".

Definition set_Scheme (v : string) (u : URL) : URL :=
  mkURL v (Opaque u) (User u) (Host u) (Path u) (RawPath u)
        (ForceQuery u) (RawQuery u) (Fragment u).
Definition set_Opaque (v : string) (u : URL) : URL :=
  mkURL (Scheme u) v (User u) (Host u) (Path u) (RawPath u)
        (ForceQuery u) (RawQuery u) (Fragment u).
Definition set_User (v : option Userinfo) (u : URL) : URL :=
  mkURL (Scheme u) (Opaque u) v (Host u) (Path u) (RawPath u)
        (ForceQuery u) (RawQuery u) (Fragment u).
Definition set_Host (v : string) (u : URL) : URL :=
  mkURL (Scheme u) (Opaque u) (User u) v (Path u) (RawPath u)
        (ForceQuery u) (RawQuery u) (Fragment u).
Definition set_Path (v : string) (u : URL) : URL :=
  mkURL (Scheme u) (Opaque u) (User u) (Host u) v (RawPath u)
        (ForceQuery u) (RawQuery u) (Fragment u).
Definition set_RawPath (v : string) (u : URL) : URL :=
  mkURL (Scheme u) (Opaque u) (User u) (Host u) (Path u) v
        (ForceQuery u) (RawQuery u) (Fragment u).
Definition set_ForceQuery (v : bool) (u : URL) : URL :=
  mkURL (Scheme u) (Opaque u) (User u) (Host u) (Path u) (RawPath u)
        v (RawQuery u) (Fragment u).
Definition set_RawQuery (v : string) (u : URL) : URL :=
  mkURL (Scheme u) (Opaque u) (User u) (Host u) (Path u) (RawPath u)
        (ForceQuery u) v (Fragment u).
Definition set_Fragment (v : string) (u : URL) : URL :=
  mkURL (Scheme u) (Opaque u) (User u) (Host u) (Path u) (RawPath u)
        (ForceQuery u) (RawQuery u) v.

Definition nonempty (s : string) : bool := negb (String.eqb s "").

Definition is_some {A : Type} (o : option A) : bool :=
  match o with Some _ => true | None => false end.

(** [split(s, c, cutc)]: [s] cut at the first [c]; the second half keeps
    [c] unless [cutc]. *)
Definition split (s : string) (c : string) (cutc : bool) : string * string :=
  match strings.Index s c with
  | None => (s, "")
  | Some i =>
      if cutc then (strings.take i s, strings.drop (i + String.length c) s)
      else (strings.take i s, strings.drop i s)
  end.

Fixpoint stringContainsCTLByte (s : string) : bool :=
  match s with
  | EmptyString => false
  | String b s' =>
      if (byte_val b <? byte_val " ")%N || Ascii.eqb b "127" then true
      else stringContainsCTLByte s'
  end.

(** The loop of [getscheme], at index [i] of [rawurl] with [rest] the
    bytes from [i] on. *)
Fixpoint getscheme_loop (rawurl : string) (i : nat) (rest : string)
    : res (string * string) :=
  match rest with
  | EmptyString => Ok ("", rawurl)
  | String c rest' =>
      if is_letter c then getscheme_loop rawurl (S i) rest'
      else if is_digit c || one_of c ["+"; "-"; "."]%char then
        if (i =? 0)%nat then Ok ("", rawurl)
        else getscheme_loop rawurl (S i) rest'
      else if Ascii.eqb c ":" then
        if (i =? 0)%nat then Err ErrMissingScheme
        else Ok (strings.take i rawurl, rest')
      else Ok ("", rawurl)
  end.

Definition getscheme (rawurl : string) : res (string * string) :=
  getscheme_loop rawurl 0 rawurl.

Fixpoint all_digits (s : string) : bool :=
  match s with
  | EmptyString => true
  | String b s' => is_digit b && all_digits s'
  end.

(** [validOptionalPort]: [port] is empty or a colon and digits. *)
Definition validOptionalPort (port : string) : bool :=
  match port with
  | EmptyString => true
  | String c rest => if Ascii.eqb c ":" then all_digits rest else false
  end.

Fixpoint validUserinfo (s : string) : bool :=
  match s with
  | EmptyString => true
  | String r s' =>
      if is_letter r || is_digit r
         || one_of r ["-"; "."; "_"; ":"; "~"; "!"; "$"; "&"; "'"; "(";
                      ")"; "*"; "+"; ","; ";"; "="; "%"; "@"]%char
      then validUserinfo s'
      else false
  end.

(** [parseHost]: a host, or host and port, without user information. *)
Definition parseHost (host : string) : res string :=
  let generic := unescape host encodeHost in
  if strings.HasPrefix host "[" then
    match strings.LastIndex host "]" with
    | None => Err ErrMissingBracket
    | Some i =>
        let colonPort := strings.drop (i + 1) host in
        if negb (validOptionalPort colonPort) then
          Err (ErrInvalidPort colonPort)
        else
          match strings.Index (strings.take i host) "%25" with
          | Some zone =>
              host1 <- unescape (strings.take zone host) encodeHost ;;
              host2 <- unescape (strings.drop zone (strings.take i host))
                                encodeZone ;;
              host3 <- unescape (strings.drop i host) encodeHost ;;
              Ok (host1 ++ host2 ++ host3)
          | None => generic
          end
    end
  else
    match strings.LastIndex host ":" with
    | Some i =>
        let colonPort := strings.drop i host in
        if negb (validOptionalPort colonPort) then
          Err (ErrInvalidPort colonPort)
        else generic
    | None => generic
    end.

Definition parseAuthority (authority : string)
    : res (option Userinfo * string) :=
  let i := strings.LastIndex authority "@" in
  host <- parseHost (match i with
                     | None => authority
                     | Some i => strings.drop (i + 1) authority
                     end) ;;
  match i with
  | None => Ok (None, host)
  | Some i =>
      let userinfo := strings.take i authority in
      if negb (validUserinfo userinfo) then Err ErrInvalidUserinfo
      else if negb (strings.Contains userinfo ":") then
        userinfo <- unescape userinfo encodeUserPassword ;;
        Ok (Some (mkUserinfo userinfo "" false), host)
      else
        let '(username, password) := split userinfo ":" true in
        username <- unescape username encodeUserPassword ;;
        password <- unescape password encodeUserPassword ;;
        Ok (Some (mkUserinfo username password true), host)
  end.

(** [setPath]: sets [Path] from the encoded path [p], and [RawPath] when
    [p] is not the default encoding of [Path]. *)
Definition setPath (u : URL) (p : string) : res URL :=
  path <- unescape p encodePath ;;
  let u := set_Path path u in
  if String.eqb p (escape path encodePath)
  then Ok (set_RawPath "" u)
  else Ok (set_RawPath p u).

(** [parse]: a URL from a string in one of two contexts; [Parse] passes
    [viaRequest = false]. *)
Definition parse (rawurl : string) (viaRequest : bool) : res URL :=
  if stringContainsCTLByte rawurl then Err ErrControlCharacter
  else if String.eqb rawurl "" && viaRequest then Err ErrEmptyURL
  else if String.eqb rawurl "*" then Ok (set_Path "*" zero)
  else
    sr <- getscheme rawurl ;;
    let '(scheme, rest) := sr in
    let url := set_Scheme (strings.ToLower scheme) zero in
    let '(url, rest) :=
      if strings.HasSuffix rest "?" && (strings.CountByte rest "?" =? 1)%nat
      then (set_ForceQuery true url,
            strings.take (String.length rest - 1) rest)
      else let '(rest, query) := split rest "?" true in
           (set_RawQuery query url, rest) in
    let rootless := negb (strings.HasPrefix rest "/") in
    if rootless && nonempty (Scheme url) then Ok (set_Opaque rest url)
    else if rootless && viaRequest then Err ErrInvalidRequestURI
    else if rootless
            && match strings.Index rest ":", strings.Index rest "/" with
               | Some colon, Some slash => (colon <? slash)%nat
               | Some _, None => true
               | None, _ => false
               end
    then Err ErrFirstSegmentColon
    else
      ur <- (if (nonempty (Scheme url)
                 || negb viaRequest && negb (strings.HasPrefix rest "///"))
                && strings.HasPrefix rest "//"
             then
               let '(authority, rest) :=
                 split (strings.drop 2 rest) "/" false in
               uh <- parseAuthority authority ;;
               Ok (set_Host (snd uh) (set_User (fst uh) url), rest)
             else Ok (url, rest)) ;;
      setPath (fst ur) (snd ur).

(** [url.Parse]: the fragment is cut off and unescaped apart.  (Go wraps
    the error in a [*url.Error] with the operation and the input; the
    handler looks at neither.) *)
Definition Parse (rawurl : string) : res URL :=
  let '(u, frag) := split rawurl "#" true in
  url <- parse u false ;;
  if String.eqb frag "" then Ok url
  else
    fragment <- unescape frag encodeFragment ;;
    Ok (set_Fragment fragment url).

Fixpoint validEncodedPath (s : string) : bool :=
  match s with
  | EmptyString => true
  | String c s' =>
      if one_of c ["!"; "$"; "&"; "'"; "("; ")"; "*"; "+"; ","; ";"; "=";
                   ":"; "@"; "["; "]"; "%"]%char
      then validEncodedPath s'
      else if shouldEscape c encodePath then false
      else validEncodedPath s'
  end.

(** [EscapedPath]: [RawPath] when it is a valid encoding of [Path], the
    default encoding of [Path] otherwise. *)
Definition EscapedPath (u : URL) : string :=
  if nonempty (RawPath u) && validEncodedPath (RawPath u)
     && match unescape (RawPath u) encodePath with
        | Ok p => String.eqb p (Path u)
        | Err _ => false
        end
  then RawPath u
  else if String.eqb (Path u) "*" then "*"
  else escape (Path u) encodePath.

(** The loop of [resolvePath] over the elements of the path: [.] is
    dropped, [..] pops the last element kept so far. *)
Fixpoint resolve_elems (src dst : list string) : list string :=
  match src with
  | [] => dst
  | elem :: src' =>
      if String.eqb elem "." then resolve_elems src' dst
      else if String.eqb elem ".." then resolve_elems src' (removelast dst)
      else resolve_elems src' (dst ++ [elem])%list
  end.

(** [resolvePath]: RFC 3986 sections 5.2.2 to 5.2.4 on the two encoded
    paths [base] and [ref]. *)
Definition resolvePath (base ref : string) : string :=
  let full :=
    match ref with
    | EmptyString => base
    | String c _ =>
        if negb (Ascii.eqb c "/") then
          match strings.LastIndex base "/" with
          | Some i => strings.take (i + 1) base ++ ref
          | None => ref
          end
        else ref
    end in
  if String.eqb full "" then ""
  else
    let src := strings.Split full "/" in
    let dst := resolve_elems src [] in
    let last := List.last src "" in
    let dst :=
      if String.eqb last "." || String.eqb last ".." then (dst ++ [""])%list
      else dst in
    "/" ++ strings.TrimPrefix (strings.Join dst "/") "/".

(** [setPath] with its error dropped, as [ResolveReference] calls it. *)
Definition setPath_ignore (u : URL) (p : string) : URL :=
  match setPath u p with
  | Ok u' => u'
  | Err _ => u
  end.

(** [u.ResolveReference(ref)]: the reference [ref] resolved against the
    base [u], per RFC 3986 section 5.2. *)
Definition ResolveReference (u ref : URL) : URL :=
  let url := ref in
  let url := if String.eqb (Scheme ref) "" then set_Scheme (Scheme u) url
             else url in
  if nonempty (Scheme ref) || nonempty (Host ref) || is_some (User ref)
  then setPath_ignore url (resolvePath (EscapedPath ref) "")
  else if nonempty (Opaque ref) then
    set_Path "" (set_Host "" (set_User None url))
  else
    let url :=
      if String.eqb (Path ref) "" && String.eqb (RawQuery ref) "" then
        let url := set_RawQuery (RawQuery u) url in
        if String.eqb (Fragment ref) ""
        then set_Fragment (Fragment u) url
        else url
      else url in
    let url := set_User (User u) (set_Host (Host u) url) in
    setPath_ignore url (resolvePath (EscapedPath u) (EscapedPath ref)).

Definition Userinfo_String (ui : Userinfo) : string :=
  let s := escape (username ui) encodeUserPassword in
  if passwordSet ui
  then s ++ ":" ++ escape (password ui) encodeUserPassword
  else s.

Fixpoint IndexByte_from (i : nat) (s : string) (c : ascii) : option nat :=
  match s with
  | EmptyString => None
  | String d s' => if Ascii.eqb d c then Some i
                   else IndexByte_from (S i) s' c
  end.

(** [u.String()]: the URL reassembled,
    [scheme://userinfo@host/path?query#fragment]. *)
Definition String_ (u : URL) : string :=
  let buf := if nonempty (Scheme u) then Scheme u ++ ":" else "" in
  let buf :=
    if nonempty (Opaque u) then buf ++ Opaque u
    else
      let buf :=
        if nonempty (Scheme u) || nonempty (Host u) || is_some (User u)
        then
          let buf :=
            if nonempty (Host u) || nonempty (Path u) || is_some (User u)
            then buf ++ "//" else buf in
          let buf :=
            match User u with
            | Some ui => buf ++ Userinfo_String ui ++ "@"
            | None => buf
            end in
          if nonempty (Host u) then buf ++ escape (Host u) encodeHost
          else buf
        else buf in
      let path := EscapedPath u in
      let buf :=
        match path with
        | String c _ =>
            if negb (Ascii.eqb c "/") && nonempty (Host u)
            then buf ++ "/" else buf
        | EmptyString => buf
        end in
      let buf :=
        if (String.length buf =? 0)%nat then
          match IndexByte_from 0 path ":" with
          | Some i =>
              match IndexByte_from 0 (strings.take i path) "/" with
              | None => buf ++ "./"
              | Some _ => buf
              end
          | None => buf
          end
        else buf in
      buf ++ path in
  let buf :=
    if ForceQuery u || nonempty (RawQuery u)
    then buf ++ "?" ++ RawQuery u else buf in
  if nonempty (Fragment u)
  then buf ++ "#" ++ escape (Fragment u) encodeFragment
  else buf.

End url.

(** ** Go values shared by the handler and its collaborators *)

(** An [error] value: made by [errors.New] or [fmt.Errorf] (an
    [errorString]), or of another dynamic type (what a validator or the
    transport returns).  [Error] is its message. *)
Inductive error : Type :=
| errorString (s : string)
| otherError (s : string).

Definition Error (e : error) : string :=
  match e with
  | errorString s => s
  | otherError s => s
  end.

Definition errors_New (text : string) : error := errorString text.

(** ** [sensu-go/types]: the part of an event the handler touches *)

Module types.

Record Entity : Type := mkEntity {
  Entity_Namespace : string;
  Entity_Name : string
}.

(** [Status] is a [uint32] in sensu-go; the handler's mappings are
    modelled over all of [Z]. *)
Record Check : Type := mkCheck {
  Check_Name : string;
  Check_Status : Z;
  Check_Output : string
}.

(** An event whose [Entity] and [Check] pointers are set, as the composer
    reads it after [run] has validated both. *)
Record Event : Type := mkEvent {
  Event_Entity : Entity;
  Event_Check : Check
}.

(** A [types.Event] as [json.Unmarshal] leaves it: [Entity] and [Check]
    are pointers, nil ([None]) when the document has no such member. *)
Record Decoded : Type := mkDecoded {
  Decoded_Entity : option Entity;
  Decoded_Check : option Check
}.

(** The decoded form of an event that has both. *)
Definition pointers (event : Event) : Decoded :=
  mkDecoded (Some (Event_Entity event)) (Some (Event_Check event)).

End types.

(** ** [net/http]: building a request *)

Module http.

Record Request : Type := mkRequest {
  Method : string;
  URL : url.URL;
  Header : list (string * string);
  Body : string
}.

Record Response : Type := mkResponse {
  StatusCode : Z;
  ResponseBody : string
}.

(** [hasPort] and [removeEmptyPort]: [host:] loses its colon. *)
Definition hasPort (s : string) : bool :=
  match strings.LastIndex s ":", strings.LastIndex s "]" with
  | Some c, Some b => (b <? c)%nat
  | Some _, None => true
  | None, _ => false
  end.

Definition removeEmptyPort (host : string) : string :=
  if hasPort host then strings.TrimSuffix host ":" else host.

(** [http.NewRequest(method, url, body)].  The request cannot be built
    when the URL does not parse; the method (here always the literal
    [POST]) is a valid one. *)
Definition NewRequest (method urlStr body : string) : url.res Request :=
  url.bind (url.Parse urlStr) (fun u =>
    url.Ok (mkRequest method
                      (url.set_Host (removeEmptyPort (url.Host u)) u)
                      [] body)).

(** [req.Header.Set(key, value)]: the entry for [key] is replaced. *)
Definition Header_Set (key value : string) (req : Request) : Request :=
  mkRequest (Method req) (URL req)
    ((key, value)
       :: filter (fun kv => negb (String.eqb (fst kv) key)) (Header req))
    (Body req).

End http.

(** ** The handler *)

(** The message card, field by field as the handler declares it. *)
Record Section_ : Type := mkSection {
  Section_Text : string
}.

Record Target : Type := mkTarget {
  OS : string;
  URI : string
}.

Record PotentialAction : Type := mkPotentialAction {
  Type_ : string;
  Name : string;
  Targets : list Target
}.

Record Message : Type := mkMessage {
  ThemeColor : string;
  Text : string;
  Channel : string;
  Sections : list Section_;
  PotentialActions : list PotentialAction
}.

(** The package-level variables that the command-line flags are bound to. *)
Record Config : Type := mkConfig {
  webhookURL : string;
  channel : string;
  messagePrefix : string;
  iconURL : string;
  actionName : string;
  dashboard : string
}.

(** [configureRootCommand]: the value of every variable when no flag is
    given; [env_webhook] is [os.Getenv("MS_TEAMS_WEBHOOK_URL")]. *)
Definition configureRootCommand (env_webhook : string) : Config :=
  {| webhookURL := env_webhook;
     channel := "#general";
     messagePrefix := "";
     iconURL := "http://s3-us-west-2.amazonaws.com/sensuapp.org/sensu.png";
     actionName := "View in Sensu";
     dashboard := "" |}.

(** What a flag does to the variable it is bound to. *)
Definition flag_webhook_url (v : string) (c : Config) : Config :=
  mkConfig v (channel c) (messagePrefix c) (iconURL c) (actionName c)
           (dashboard c).
Definition flag_channel (v : string) (c : Config) : Config :=
  mkConfig (webhookURL c) v (messagePrefix c) (iconURL c) (actionName c)
           (dashboard c).
Definition flag_message_prefix (v : string) (c : Config) : Config :=
  mkConfig (webhookURL c) (channel c) v (iconURL c) (actionName c)
           (dashboard c).
Definition flag_icon_url (v : string) (c : Config) : Config :=
  mkConfig (webhookURL c) (channel c) (messagePrefix c) v (actionName c)
           (dashboard c).
Definition flag_action_name (v : string) (c : Config) : Config :=
  mkConfig (webhookURL c) (channel c) (messagePrefix c) (iconURL c) v
           (dashboard c).
Definition flag_dashboard (v : string) (c : Config) : Config :=
  mkConfig (webhookURL c) (channel c) (messagePrefix c) (iconURL c)
           (actionName c) v.

(** The collaborators whose code lives in other packages: the JSON codec,
    the methods of [types.Event], [types.Entity] and [types.Check], and
    the usage text that cobra derives from the command.
    [json_Unmarshal data] is [json.Unmarshal(data, &types.Event{})]. *)
Class Collaborators : Type := {
  json_Unmarshal : string -> types.Decoded + error;
  json_Marshal : Message -> string;
  Entity_Validate : types.Entity -> option error;
  Check_Validate : types.Check -> option error;
  Event_URIPath : types.Event -> string;
  Command_UsageString : string
}.

(** What is outside the process: the bytes on standard input (or the error
    of reading them), the network behind [http.Client], and the date and
    time that the standard logger puts before a message. *)
Record World : Type := mkWorld {
  stdin_ReadAll : string + error;
  client_Do : http.Request -> http.Response + error;
  Body_Close : http.Response -> option error;
  log_header : string
}.

(** What the process does to the outside, in order. *)
Inductive Effect : Type :=
| PrintHelp
| ReadStdin
| HTTPDo (req : http.Request)
| CloseBody (resp : http.Response).

Inductive panic_value : Type :=
| PanicError (e : error)           (* panic(err) *)
| PanicNilDereference.             (* a field or method of a nil pointer *)

(** A Go function call either returns or panics. *)
Inductive outcome (A : Type) : Type :=
| Returned (a : A)
| Panicked (v : panic_value).
Arguments Returned {A} a.
Arguments Panicked {A} v.

(** Effectful code: the log of effects so far goes in, the outcome and the
    extended log come out. *)
Definition Go (A : Type) : Type := list Effect -> outcome A * list Effect.

Definition ret {A : Type} (a : A) : Go A := fun log => (Returned a, log).

Definition panic {A : Type} (v : panic_value) : Go A :=
  fun log => (Panicked v, log).

Definition bind {A B : Type} (m : Go A) (k : A -> Go B) : Go B :=
  fun log =>
    match m log with
    | (Returned a, log') => k a log'
    | (Panicked v, log') => (Panicked v, log')
    end.

Definition perform {A : Type} (e : Effect) (a : A) : Go A :=
  fun log => (Returned a, (log ++ [e])%list).

Declare Scope go_scope.
Delimit Scope go_scope with go.
Notation "x <- m ;; k" := (bind m (fun x => k))
  (at level 61, m at next level, right associativity) : go_scope.
Notation "m ;;; k" := (bind m (fun _ => k))
  (at level 61, right associativity) : go_scope.

(** The first element of a slice rewritten in place ([s[0].f = ...]).  Go
    panics on an empty slice; the handler indexes a slice it has just
    appended to. *)
Definition update_first {A : Type} (f : A -> A) (s : list A) : list A :=
  match s with
  | [] => []
  | a :: rest => f a :: rest
  end.

Section Handler.

Context {collaborators : Collaborators}.
Variable cfg : Config.

Definition getColor (event : types.Event) : string :=
  match types.Check_Status (types.Event_Check event) with
  | 0%Z => "#36A64F"
  | 1%Z => "#FFCC00"
  | 2%Z => "#FF0000"
  | _ => "#6600CC"
  end.

Definition getMessageStatus (event : types.Event) : string :=
  match types.Check_Status (types.Event_Check event) with
  | 0%Z => "RESOLVED"
  | 1%Z => "WARNING"
  | 2%Z => "CRITICAL"
  | _ => "UNKNOWN"
  end.

(** The body of [getLink] on the two strings it parses: the [dashboard]
    variable and [event.URIPath()]. *)
Definition resolveLink (dashboardBaseURL eventPath : string) : string :=
  match url.Parse dashboardBaseURL with
  | url.Err _ => ""
  | url.Ok dashboardUrl =>
      match url.Parse eventPath with
      | url.Err _ => ""
      | url.Ok eventPath =>
          url.String_ (url.ResolveReference dashboardUrl eventPath)
      end
  end.

Definition getLink (event : types.Event) : string :=
  resolveLink (dashboard cfg) (Event_URIPath event).

Definition NewEventMessage (event : types.Event) : Message :=
  let message :=
    mkMessage (getColor event) (getMessageStatus event) (channel cfg)
              [] [] in
  let message :=
    mkMessage (ThemeColor message) (Text message) (Channel message)
              (Sections message
                 ++ [mkSection (types.Check_Output (types.Event_Check event))])%list
              (PotentialActions message) in
  let message :=
    mkMessage (ThemeColor message) (Text message) (Channel message)
              (Sections message)
              (PotentialActions message
                 ++ [mkPotentialAction "OpenUri" "View in Sensu" []])%list in
  mkMessage (ThemeColor message) (Text message) (Channel message)
            (Sections message)
            (update_first
               (fun a => mkPotentialAction (Type_ a) (Name a)
                           (Targets a ++ [mkTarget "default" (getLink event)])%list)
               (PotentialActions message)).

Variable world : World.

Local Open Scope go_scope.

(** [sendMessage].  [http.NewRequest]'s error is never looked at: on a
    nil request [req.Header.Set] dereferences a nil pointer.  The
    deferred closing of the body runs when the function returns. *)
Definition sendMessage (event : types.Event) : Go (option error) :=
  let message := NewEventMessage event in
  let MessageString := json_Marshal message in
  req <- match http.NewRequest "POST" (webhookURL cfg) MessageString with
         | url.Ok req =>
             ret (http.Header_Set "Content-Type" "application/json" req)
         | url.Err _ => panic PanicNilDereference
         end ;;
  r <- perform (HTTPDo req) (client_Do world req) ;;
  match r with
  | inr err => panic (PanicError err)
  | inl resp =>
      closed <- perform (CloseBody resp) (Body_Close world resp) ;;
      match closed with
      | Some err => panic (PanicError err)
      | None => ret None
      end
  end.

(** [run], the command's [RunE]; [args] are the positional arguments
    that cobra leaves after the flags.  [event.Entity.Validate()] and
    [event.Check.Validate()] read the name of their receiver first: on a
    nil pointer they dereference nil. *)
Definition run (args : list string) : Go (option error) :=
  if negb (List.length args =? 0)%nat then
    perform PrintHelp tt ;;;
    ret (Some (errors_New "invalid argument(s) received"))
  else if String.eqb (webhookURL cfg) "" then
    perform PrintHelp tt ;;;
    ret (Some (errorString "webhook url is empty"))
  else
    r <- perform ReadStdin (stdin_ReadAll world) ;;
    match r with
    | inr err =>
        ret (Some (errorString ("failed to read stdin: " ++ Error err)))
    | inl eventJSON =>
        match json_Unmarshal eventJSON with
        | inr _ =>
            ret (Some (errorString
                         ("failed to unmarshal stdin data: " ++ eventJSON)))
        | inl event =>
            match types.Decoded_Entity event with
            | None => panic PanicNilDereference
            | Some entity =>
                match Entity_Validate entity with
                | Some err => ret (Some err)
                | None =>
                    match types.Decoded_Check event with
                    | None => panic PanicNilDereference
                    | Some check =>
                        match Check_Validate check with
                        | Some err => ret (Some err)
                        | None =>
                            err <- sendMessage (types.mkEvent entity check) ;;
                            match err with
                            | Some err =>
                                ret (Some (errors_New (Error err)))
                            | None => ret None
                            end
                        end
                    end
                end
            end
        end
    end.

(** How the process ends: its exit status, what it wrote to standard
    error, and what it did to the outside. *)
Record Exit : Type := mkExit {
  status : Z;
  stderr : list string;
  effects : list Effect
}.

Definition panic_message (v : panic_value) : string :=
  match v with
  | PanicError e => "panic: " ++ Error e
  | PanicNilDereference =>
      "panic: runtime error: invalid memory address or nil pointer dereference"
  end.

(** What reaches standard error when [run] returned [err].  The command
    sets neither [SilenceErrors] nor [SilenceUsage], so that
    [rootCmd.Execute] prints cobra's error line and the usage text before
    it hands the error to [main]; [log.Fatal] then logs the message behind
    the logger's date and time.  Each entry is one write, without its
    final newline. *)
Definition error_output (err : error) : list string :=
  ["Error: " ++ Error err;
   Command_UsageString;
   log_header world ++ Error err].

(** [main] on a command line that cobra has parsed: the flags are bound in
    [cfg], and [rootCmd.Execute] calls [run] on the positional arguments.
    The command lines that cobra answers without calling [run] (the
    [-h]/[--help] flag, which prints the help and exits with status 0,
    and a flag that does not parse) are not invocations in this sense.
    An error of [run] goes to [log.Fatal], which exits with status 1; a
    panic that nothing recovers ends the process with status 2, and
    [stderr] then holds the runtime's [panic:] line, without the goroutine
    trace that follows it. *)
Definition main (args : list string) : Exit :=
  match run args [] with
  | (Returned None, log) => mkExit 0 [] log
  | (Returned (Some err), log) => mkExit 1 (error_output err) log
  | (Panicked v, log) => mkExit 2 [panic_message v] log
  end.

End Handler.

Arguments getColor event : simpl never.
Arguments getMessageStatus event : simpl never.

(** The requests that reached the network, in order. *)
Fixpoint http_calls (log : list Effect) : list http.Request :=
  match log with
  | [] => []
  | HTTPDo req :: rest => req :: http_calls rest
  | _ :: rest => http_calls rest
  end.

(** Whether standard input was read. *)
Definition stdin_was_read (log : list Effect) : bool :=
  existsb (fun e => match e with ReadStdin => true | _ => false end) log.

(** The status mapping as the specification tabulates it:
    0, 1 and 2 have a pair of their own, every other code is unknown. *)
Definition status_table (code : Z) : string * string :=
  if (code =? 0)%Z then ("#36A64F", "RESOLVED")
  else if (code =? 1)%Z then ("#FFCC00", "WARNING")
  else if (code =? 2)%Z then ("#FF0000", "CRITICAL")
  else ("#6600CC", "UNKNOWN").

(** A string that starts with one slash and not with two: an absolute
    path, and not an authority. *)
Definition rooted (s : string) : bool :=
  strings.HasPrefix s "/" && negb (strings.HasPrefix s "//").

(** A path element other than [.] and [..]. *)
Definition plain (elem : string) : bool :=
  negb (String.eqb elem ".") && negb (String.eqb elem "..").

(** No segment of an encoded path is [.] or [..]. *)
Definition dot_free (path : string) : bool :=
  forallb plain (strings.Split path "/").

(** A reference with neither scheme nor authority nor opaque part: what
    RFC 3986 calls a relative reference with an absolute or relative path. *)
Definition path_reference (ref : url.URL) : bool :=
  String.eqb (url.Scheme ref) "" && String.eqb (url.Host ref) ""
  && negb (url.is_some (url.User ref)) && String.eqb (url.Opaque ref) "".

(** An event whose check has status [code]. *)
Definition event_with_status (entity : types.Entity) (name output : string)
    (code : Z) : types.Event :=
  types.mkEvent entity (types.mkCheck name code output).

(** Unfolds the [Go] monad and the handler's effectful functions. *)
Ltac go_unfold :=
  unfold main, run, sendMessage, bind, perform, ret, panic.

(** Rewrites with the boolean form of a hypothesis about the webhook URL. *)
Ltac webhook_set H :=
  let E := fresh "E" in
  pose proof (proj2 (String.eqb_neq _ _) H) as E; rewrite ?E.

(** ** Go's [path] package: [Clean] and [Join]

    sensu-go builds the path of an event with [url.PathEscape] and
    [path.Join]. *)

(** [url.PathEscape] *)
Definition url_PathEscape (s : string) : string :=
  url.escape s url.encodePathSegment.

Module gopath.

(** [out.index(i)] *)
Definition byte_at (i : nat) (out : string) : ascii :=
  match String.get i out with
  | Some c => c
  | None => "000"%char
  end.

(** [for out.w > dotdot && out.index(out.w) != '/' { out.w-- }], from
    [out.w = w]. *)
Fixpoint back_up (w : nat) (out : string) (dotdot : nat) : nat :=
  match w with
  | O => O
  | S w' =>
      if (dotdot <? w)%nat && negb (Ascii.eqb (byte_at w out) "/")
      then back_up w' out dotdot
      else w
  end.

(** The bytes up to the next slash, and what follows them. *)
Fixpoint element (s : string) : string * string :=
  match s with
  | EmptyString => (EmptyString, EmptyString)
  | String c s' =>
      if Ascii.eqb c "/" then (EmptyString, s)
      else let '(e, rest) := element s' in (String c e, rest)
  end.

(** [r == n || path[r] == '/'] for the bytes [s] from [r] on. *)
Definition at_boundary (s : string) : bool :=
  match s with
  | EmptyString => true
  | String c _ => Ascii.eqb c "/"
  end.

(** The loop of [Clean]: [rest] is the input from [r] on, [out] the output
    written so far.  Every turn reads at least one byte, so that the
    length of the input is fuel enough. *)
Fixpoint clean_loop (fuel : nat) (rooted : bool) (rest out : string)
    (dotdot : nat) : string :=
  match fuel with
  | O => out
  | S fuel' =>
      match rest with
      | EmptyString => out
      | String c r1 =>
          if Ascii.eqb c "/" then clean_loop fuel' rooted r1 out dotdot
          else if Ascii.eqb c "." && at_boundary r1 then
            clean_loop fuel' rooted r1 out dotdot
          else if Ascii.eqb c "."
                  && match r1 with
                     | String d r2 => Ascii.eqb d "." && at_boundary r2
                     | EmptyString => false
                     end
          then
            let r2 := strings.drop 1 r1 in
            if (dotdot <? String.length out)%nat then
              clean_loop fuel' rooted r2
                (strings.take (back_up (String.length out - 1) out dotdot) out)
                dotdot
            else if negb rooted then
              let out :=
                (if (0 <? String.length out)%nat then out ++ "/" else out)
                ++ ".." in
              clean_loop fuel' rooted r2 out (String.length out)
            else clean_loop fuel' rooted r2 out dotdot
          else
            let out :=
              if rooted && negb (String.length out =? 1)%nat
                 || negb rooted && negb (String.length out =? 0)%nat
              then out ++ "/" else out in
            let '(elem, rest') := element rest in
            clean_loop fuel' rooted rest' (out ++ elem) dotdot
      end
  end.

(** [path.Clean] *)
Definition Clean (path : string) : string :=
  match path with
  | EmptyString => "."
  | String c _ =>
      let out :=
        if Ascii.eqb c "/"
        then clean_loop (String.length path) true (strings.drop 1 path) "/" 1
        else clean_loop (String.length path) false path "" 0 in
      if (String.length out =? 0)%nat then "." else out
  end.

(** [path.Join]: the elements from the first non-empty one on, joined with
    slashes and cleaned. *)
Fixpoint Join (elem : list string) : string :=
  match elem with
  | [] => EmptyString
  | e :: rest =>
      if String.eqb e "" then Join rest
      else Clean (strings.Join elem "/")
  end.

End gopath.

(** ** Test doubles

    Stand-ins for the collaborators and the outside world, to run the
    handler on concrete inputs. *)

Module Double.

Definition quoted (s : string) : string :=
  String dquote (s ++ String dquote "").

(** A JSON document cut short. *)
Definition truncated_payload : string := "{" ++ quoted "entity" ++ ":".

Definition object_ (name : string) (fields : string) : string :=
  quoted name ++ ":{" ++ fields ++ "}".

Definition field (name value : string) : string := quoted name ++ ":" ++ value.

Definition event_payload (entity check output : string) (code : string)
    : string :=
  "{" ++ object_ "entity"
           (object_ "metadata"
              (field "name" (quoted entity) ++ ","
               ++ field "namespace" (quoted "default")))
      ++ ","
      ++ object_ "check"
           (object_ "metadata" (field "name" (quoted check)) ++ ","
            ++ field "status" code ++ ","
            ++ field "output" (quoted output))
      ++ "}".

Definition event_e1 : types.Event :=
  types.mkEvent (types.mkEntity "default" "e1")
                (types.mkCheck "disk" 2 "disk full").

Definition payload_e1 : string := event_payload "e1" "disk" "disk full" "2".

(** An event whose entity has no name. *)
Definition event_unnamed : types.Event :=
  types.mkEvent (types.mkEntity "default" "")
                (types.mkCheck "disk" 2 "disk full").

Definition payload_unnamed : string := event_payload "" "disk" "disk full" "2".

(** A document with an entity and no check. *)
Definition payload_no_check : string :=
  "{" ++ object_ "entity"
           (object_ "metadata"
              (field "name" (quoted "e1") ++ ","
               ++ field "namespace" (quoted "default")))
      ++ "}".

(** A decoder that knows the documents above and the empty object, which
    has neither entity nor check. *)
Definition decode (data : string) : types.Decoded + error :=
  if String.eqb data payload_e1 then inl (types.pointers event_e1)
  else if String.eqb data payload_unnamed then
    inl (types.pointers event_unnamed)
  else if String.eqb data payload_no_check then
    inl (types.mkDecoded (Some (types.mkEntity "default" "e1")) None)
  else if String.eqb data "{}" then inl (types.mkDecoded None None)
  else inr (otherError "unexpected end of JSON input").

Definition validate_name (what name : string) : option error :=
  if String.eqb name "" then Some (otherError (what ++ " name must not be empty"))
  else None.

(** [Event.URIPath] of sensu-go, for an event that has a check: each name
    is escaped, the parts are joined and the path is cleaned. *)
Definition uri_path (event : types.Event) : string :=
  gopath.Join
    ["/api/core/v2"; "namespaces";
     url_PathEscape (types.Entity_Namespace (types.Event_Entity event));
     "events";
     url_PathEscape (types.Entity_Name (types.Event_Entity event));
     url_PathEscape (types.Check_Name (types.Event_Check event))].

(** A serializer that keeps the fields apart, in order. *)
Definition encode (m : Message) : string :=
  ThemeColor m ++ "; " ++ Text m ++ "; " ++ Channel m ++ "; "
  ++ strings.Join (map Section_Text (Sections m)) "; " ++ "; "
  ++ strings.Join
       (map (fun a => Type_ a ++ " " ++ Name a ++ " "
                      ++ strings.Join (map (fun t => OS t ++ " " ++ URI t)
                                           (Targets a)) " ")
            (PotentialActions m)) "; ".

Definition collaborators : Collaborators :=
  {| json_Unmarshal := decode;
     json_Marshal := encode;
     Entity_Validate := fun e => validate_name "entity" (types.Entity_Name e);
     Check_Validate := fun c => validate_name "check" (types.Check_Name c);
     Event_URIPath := uri_path;
     Command_UsageString :=
       "Usage:  sensu-microsoft-teams-handler [flags]" |}.

Definition config : Config :=
  flag_dashboard "https://dash.example.com/"
    (configureRootCommand "https://outlook.office.com/webhook/abc").

(** A webhook URL with a space in its host: [http.NewRequest] rejects it. *)
Definition config_bad_webhook : Config :=
  flag_webhook_url "https://outlook office.com/webhook/abc" config.

(** A dashboard URL with a space in its host: [url.Parse] rejects it. *)
Definition config_bad_dashboard : Config :=
  flag_dashboard "https://dash example.com/" config.



(** The network answers. *)
Definition world_up (input : string) : World :=
  {| stdin_ReadAll := inl input;
     client_Do := fun _ => inl (http.mkResponse 200 "1");
     Body_Close := fun _ => None;
     log_header := "2019/11/05 10:00:00 " |}.

(** The network is unreachable. *)
Definition world_down (input : string) : World :=
  {| stdin_ReadAll := inl input;
     client_Do := fun _ => inr (otherError "dial tcp: connection refused");
     Body_Close := fun _ => None;
     log_header := "2019/11/05 10:00:00 " |}.

(** Standard input cannot be read. *)
Definition world_no_stdin : World :=
  {| stdin_ReadAll := inr (otherError "read /dev/stdin: input/output error");
     client_Do := fun _ => inl (http.mkResponse 200 "1");
     Body_Close := fun _ => None;
     log_header := "2019/11/05 10:00:00 " |}.

(** The webhook answers with a server error. *)
Definition world_500 (input : string) : World :=
  {| stdin_ReadAll := inl input;
     client_Do := fun _ => inl (http.mkResponse 500 "Internal Server Error");
     Body_Close := fun _ => None;
     log_header := "2019/11/05 10:00:00 " |}.

(** The webhook answers, and closing the response body fails. *)
Definition world_close_fails (input : string) : World :=
  {| stdin_ReadAll := inl input;
     client_Do := fun _ => inl (http.mkResponse 200 "1");
     Body_Close := fun _ => Some (otherError "close: connection reset");
     log_header := "2019/11/05 10:00:00 " |}.

End Double.

(** Every byte of [s] satisfies [p]. *)
Fixpoint all_bytes (p : ascii -> bool) (s : string) : bool :=
  match s with
  | EmptyString => true
  | String c s' => p c && all_bytes p s'
  end.

(** A path that [net/url] neither escapes nor cuts: letters, digits and the
    bytes [- _ . ~ $ & + , / : ; = @] only. *)
Definition path_safe (s : string) : bool :=
  all_bytes (fun c => negb (url.shouldEscape c url.encodePath)) s.



(** The URL that has the path [path] and nothing else. *)
Definition path_only (path : string) : url.URL :=
  url.mkURL "" "" None "" path "" false "" "".

(** What [String] prints of a URL before its path, when the URL has a
    scheme and a host: [scheme://userinfo@host]. *)
Definition origin (u : url.URL) : string :=
  url.Scheme u ++ "://"
  ++ match url.User u with
     | Some ui => url.Userinfo_String ui ++ "@"
     | None => ""
     end
  ++ url.escape (url.Host u) url.encodeHost.

(** ** The handler as [main.go] has it

    [main.go] holds another state of the same handler: the message has a
    user name and an image, its color is fixed, and the dashboard is a
    [url.URL] variable that no flag is bound to ([Target] and
    [PotentialAction] are declared as above). *)

Module MainGo.

Record Section_ : Type := mkSection {
  ActivityImage : string;
  Section_Text : string
}.

Record Message : Type := mkMessage {
  ThemeColor : string;
  Text : string;
  Channel : string;
  Username : string;
  Sections : list Section_;
  PotentialActions : list PotentialAction
}.

Record Config : Type := mkConfig {
  webhookURL : string;
  channel : string;
  messagePrefix : string;
  botName : string;
  iconURL : string;
  actionName : string;
  dashboard : url.URL
}.

(** The package variables before any flag is declared: Go's zero values. *)
Definition zero_config : Config := mkConfig "" "" "" "" "" "" url.zero.

(** The flags that [configureRootCommand] declares, by name. *)
Inductive flag : Type :=
| webhook_url
| channel_flag
| message_prefix
| bot_name
| icon_url
| action_name
| dashboard_flag.

(** [assign f v]: what giving flag [f] the value [v] stores, in the variable
    that [StringVarP] bound the flag to.  The ["dashboard"] flag is bound to
    [&actionName]. *)
Definition assign (f : flag) (v : string) (c : Config) : Config :=
  match f with
  | webhook_url =>
      mkConfig v (channel c) (messagePrefix c) (botName c) (iconURL c)
               (actionName c) (dashboard c)
  | channel_flag =>
      mkConfig (webhookURL c) v (messagePrefix c) (botName c) (iconURL c)
               (actionName c) (dashboard c)
  | message_prefix =>
      mkConfig (webhookURL c) (channel c) v (botName c) (iconURL c)
               (actionName c) (dashboard c)
  | bot_name =>
      mkConfig (webhookURL c) (channel c) (messagePrefix c) v (iconURL c)
               (actionName c) (dashboard c)
  | icon_url =>
      mkConfig (webhookURL c) (channel c) (messagePrefix c) (botName c) v
               (actionName c) (dashboard c)
  | action_name | dashboard_flag =>
      mkConfig (webhookURL c) (channel c) (messagePrefix c) (botName c)
               (iconURL c) v (dashboard c)
  end.

(** [configureRootCommand]: each [StringVarP] stores its default in the
    variable it binds, in the order of the declarations. *)
Definition configureRootCommand (env_webhook : string) : Config :=
  assign dashboard_flag ""
    (assign action_name "View in Sensu"
       (assign icon_url
               "http://s3-us-west-2.amazonaws.com/sensuapp.org/sensu.png"
          (assign bot_name ""
             (assign message_prefix ""
                (assign channel_flag "#general"
                   (assign webhook_url env_webhook zero_config)))))).

(** The flags of a command line, stored from left to right. *)
Definition parse_flags (line : list (flag * string)) (c : Config) : Config :=
  fold_left (fun c fv => assign (fst fv) (snd fv) c) line c.

Section Handler.

Context {collaborators : Collaborators}.
Variable cfg : Config.

(** [NewEventMessage].  The error of [url.Parse] is dropped: on a nil
    [eventPath], [ResolveReference] dereferences a nil pointer. *)
Definition NewEventMessage (event : types.Event) : outcome Message :=
  match url.Parse (Event_URIPath event) with
  | url.Err _ => Panicked PanicNilDereference
  | url.Ok eventPath =>
      let eventLink :=
        url.String_ (url.ResolveReference (dashboard cfg) eventPath) in
      let message :=
        mkMessage "red" eventLink (channel cfg) (botName cfg) [] [] in
      let message :=
        mkMessage (ThemeColor message) (Text message) (Channel message)
                  (Username message)
                  (Sections message
                     ++ [mkSection (iconURL cfg)
                           (types.Check_Output (types.Event_Check event))])%list
                  (PotentialActions message) in
      let message :=
        mkMessage (ThemeColor message) (Text message) (Channel message)
                  (Username message) (Sections message)
                  (PotentialActions message
                     ++ [mkPotentialAction "OpenUri" "View in Sensu" []])%list in
      Returned
        (mkMessage (ThemeColor message) (Text message) (Channel message)
                   (Username message) (Sections message)
                   (update_first
                      (fun a => mkPotentialAction (Type_ a) (Name a)
                                  (Targets a ++ [mkTarget "default" eventLink])%list)
                      (PotentialActions message)))
  end.

End Handler.

End MainGo.

(** * Properties *)

(** ** The status mapping *)

Section StatusMapping.

Variables (entity : types.Entity) (name output : string).

Let event_of := event_with_status entity name output.

Lemma getColor_other (code : Z) :
  code <> 0%Z -> code <> 1%Z -> code <> 2%Z ->
  getColor (event_of code) = "#6600CC".
Proof.
  intros H0 H1 H2. unfold getColor, event_of, event_with_status; simpl.
  destruct code as [| p | p]; [congruence | | reflexivity].
  destruct p as [[q | q |] | [q | q |] |]; try reflexivity; congruence.
Qed.

Lemma getMessageStatus_other (code : Z) :
  code <> 0%Z -> code <> 1%Z -> code <> 2%Z ->
  getMessageStatus (event_of code) = "UNKNOWN".
Proof.
  intros H0 H1 H2. unfold getMessageStatus, event_of, event_with_status; simpl.
  destruct code as [| p | p]; [congruence | | reflexivity].
  destruct p as [[q | q |] | [q | q |] |]; try reflexivity; congruence.
Qed.

Lemma status_pair_table (code : Z) :
  (getColor (event_of code), getMessageStatus (event_of code))
  = status_table code.
Proof.
  unfold status_table.
  destruct (Z.eqb_spec code 0) as [-> | H0]; [reflexivity |].
  destruct (Z.eqb_spec code 1) as [-> | H1]; [reflexivity |].
  destruct (Z.eqb_spec code 2) as [-> | H2]; [reflexivity |].
  now rewrite getColor_other, getMessageStatus_other.
Qed.

End StatusMapping.

(** C1: [getColor] and [getMessageStatus] are total functions of the
    integer status code.  Every event falls in one of four cases: status 0
    with ["#36A64F"] and ["RESOLVED"], status 1 with ["#FFCC00"] and
    ["WARNING"], status 2 with ["#FF0000"] and ["CRITICAL"], or any other
    integer, negative or large, with ["#6600CC"] and ["UNKNOWN"]; the pair
    is the one of the specification's table, and no status makes the
    functions fail (-1, 3 and 999 are unknown). *)
Theorem status_mapping_total :
  (forall event : types.Event,
      let code := types.Check_Status (types.Event_Check event) in
      let color := getColor event in
      let label := getMessageStatus event in
      (color, label) = status_table code
      /\ ((code = 0%Z /\ color = "#36A64F" /\ label = "RESOLVED")
          \/ (code = 1%Z /\ color = "#FFCC00" /\ label = "WARNING")
          \/ (code = 2%Z /\ color = "#FF0000" /\ label = "CRITICAL")
          \/ (code <> 0%Z /\ code <> 1%Z /\ code <> 2%Z
              /\ color = "#6600CC" /\ label = "UNKNOWN")))
  /\ (forall (entity : types.Entity) (name output : string),
        let unknown code :=
          let event := types.mkEvent entity (types.mkCheck name code output) in
          (getColor event, getMessageStatus event) = ("#6600CC", "UNKNOWN") in
        unknown (-1)%Z /\ unknown 3%Z /\ unknown 999%Z).
Proof.
  split.
  - intros [entity [name code output]]; simpl.
    split; [apply status_pair_table |].
    destruct (Z.eq_dec code 0) as [-> | H0]; [left; repeat split |].
    destruct (Z.eq_dec code 1) as [-> | H1]; [right; left; repeat split |].
    destruct (Z.eq_dec code 2) as [-> | H2];
      [right; right; left; repeat split |].
    right; right; right.
    repeat split; try assumption.
    + now apply getColor_other.
    + now apply getMessageStatus_other.
  - intros entity name output; repeat split.
Qed.

(** ** The composer *)

Section Composer.

Context {collaborators : Collaborators}.
Variable cfg : Config.

Lemma NewEventMessage_eq (event : types.Event) :
  NewEventMessage cfg event
  = mkMessage (getColor event) (getMessageStatus event) (channel cfg)
      [mkSection (types.Check_Output (types.Event_Check event))]
      [mkPotentialAction "OpenUri" "View in Sensu"
         [mkTarget "default" (getLink cfg event)]].
Proof. reflexivity. Qed.

Lemma NewEventMessage_ignores_prefix_and_action (p a : string)
    (event : types.Event) :
  NewEventMessage (flag_action_name a (flag_message_prefix p cfg)) event
  = NewEventMessage cfg event.
Proof. reflexivity. Qed.

Lemma resolveLink_cases (base path : string) :
  (exists b r,
      url.Parse base = url.Ok b /\ url.Parse path = url.Ok r
      /\ resolveLink base path = url.String_ (url.ResolveReference b r))
  \/ (((exists e, url.Parse base = url.Err e)
       \/ (exists e, url.Parse path = url.Err e))
      /\ resolveLink base path = "").
Proof.
  unfold resolveLink.
  destruct (url.Parse base) as [b | e].
  - destruct (url.Parse path) as [r | e].
    + left. now exists b, r.
    + right. split; [right; now exists e | reflexivity].
  - right. split; [left; now exists e | reflexivity].
Qed.

End Composer.

(** C2: for every event whose check has status 2 and output
    ["disk full"], whatever the configuration, the composed message has
    theme color ["#FF0000"], text ["CRITICAL"] and exactly one section,
    whose text is ["disk full"]. *)
Theorem critical_disk_full_message {collaborators : Collaborators}
    (cfg : Config) (event : types.Event) :
  types.Check_Status (types.Event_Check event) = 2%Z ->
  types.Check_Output (types.Event_Check event) = "disk full" ->
  let message := NewEventMessage cfg event in
  ThemeColor message = "#FF0000"
  /\ Text message = "CRITICAL"
  /\ Sections message = [mkSection "disk full"].
Proof.
  intros Hstatus Houtput message. subst message.
  rewrite NewEventMessage_eq; simpl.
  unfold getColor, getMessageStatus. rewrite Hstatus, Houtput.
  repeat split.
Qed.

Lemma critical_disk_full_message_witness :
  types.Check_Status (types.Event_Check Double.event_e1) = 2%Z
  /\ types.Check_Output (types.Event_Check Double.event_e1) = "disk full"
  /\ (let message :=
        @NewEventMessage Double.collaborators Double.config Double.event_e1 in
      ThemeColor message = "#FF0000"
      /\ Text message = "CRITICAL"
      /\ Sections message = [mkSection "disk full"]).
Proof.
  split; [reflexivity | split; [reflexivity |]].
  apply (@critical_disk_full_message Double.collaborators Double.config
           Double.event_e1); reflexivity.
Defined.

(** C5: the composed message of every event carries exactly one action,
    of type ["OpenUri"] and name ["View in Sensu"], with exactly one
    target, whose os is ["default"] and whose uri is the link of the
    event: the event's path resolved against the dashboard URL when both
    parse, the empty string when one of them does not. *)
Theorem single_open_uri_action {collaborators : Collaborators}
    (cfg : Config) (event : types.Event) :
  PotentialActions (NewEventMessage cfg event)
  = [mkPotentialAction "OpenUri" "View in Sensu"
       [mkTarget "default" (getLink cfg event)]]
  /\ ((exists base ref,
          url.Parse (dashboard cfg) = url.Ok base
          /\ url.Parse (Event_URIPath event) = url.Ok ref
          /\ getLink cfg event = url.String_ (url.ResolveReference base ref))
      \/ (((exists e, url.Parse (dashboard cfg) = url.Err e)
           \/ (exists e, url.Parse (Event_URIPath event) = url.Err e))
          /\ getLink cfg event = "")).
Proof.
  split; [reflexivity | apply resolveLink_cases].
Qed.

(** C10: the message prefix and the action name never reach the output.
    For every event and any two values of each, the composed messages are
    equal, so are their serializations and so is everything [sendMessage]
    does; the only action is named ["View in Sensu"] whatever the action
    name is set to. *)
Theorem prefix_and_action_name_unused {collaborators : Collaborators}
    (cfg : Config) (world : World) (event : types.Event)
    (prefix1 name1 prefix2 name2 : string) :
  let cfg1 := flag_action_name name1 (flag_message_prefix prefix1 cfg) in
  let cfg2 := flag_action_name name2 (flag_message_prefix prefix2 cfg) in
  NewEventMessage cfg1 event = NewEventMessage cfg2 event
  /\ json_Marshal (NewEventMessage cfg1 event)
     = json_Marshal (NewEventMessage cfg2 event)
  /\ (forall log, sendMessage cfg1 world event log
                  = sendMessage cfg2 world event log)
  /\ map Name (PotentialActions (NewEventMessage cfg1 event))
     = ["View in Sensu"].
Proof.
  intros cfg1 cfg2. subst cfg1 cfg2.
  rewrite !NewEventMessage_ignores_prefix_and_action.
  repeat split.
Qed.

(** ** The pipeline *)

Section Pipeline.

Context {collaborators : Collaborators}.
Variables (cfg : Config) (world : World).

(** With positional arguments left over, [run] stops at once. *)
Lemma run_stray_arguments (a : string) (args : list string) (log : list Effect) :
  run cfg world (a :: args) log
  = (Returned (Some (errors_New "invalid argument(s) received")),
     (log ++ [PrintHelp])%list).
Proof. reflexivity. Qed.

Lemma run_empty_webhook (log : list Effect) :
  webhookURL cfg = "" ->
  run cfg world [] log
  = (Returned (Some (errorString "webhook url is empty")),
     (log ++ [PrintHelp])%list).
Proof. intros H. go_unfold. now rewrite H. Qed.

(** Up to the decoding of standard input. *)
Lemma run_reads (payload : string) (log : list Effect) :
  webhookURL cfg <> "" ->
  stdin_ReadAll world = inl payload ->
  run cfg world [] log
  = match json_Unmarshal payload with
    | inr _ =>
        (Returned (Some (errorString
                           ("failed to unmarshal stdin data: " ++ payload))),
         (log ++ [ReadStdin])%list)
    | inl event =>
        match types.Decoded_Entity event with
        | None => (Panicked PanicNilDereference, (log ++ [ReadStdin])%list)
        | Some entity =>
            match Entity_Validate entity with
            | Some err => (Returned (Some err), (log ++ [ReadStdin])%list)
            | None =>
                match types.Decoded_Check event with
                | None =>
                    (Panicked PanicNilDereference, (log ++ [ReadStdin])%list)
                | Some check =>
                    match Check_Validate check with
                    | Some err =>
                        (Returned (Some err), (log ++ [ReadStdin])%list)
                    | None =>
                        match sendMessage cfg world
                                (types.mkEvent entity check)
                                (log ++ [ReadStdin])%list with
                        | (Returned (Some err), log') =>
                            (Returned (Some (errors_New (Error err))), log')
                        | (Returned None, log') => (Returned None, log')
                        | (Panicked v, log') => (Panicked v, log')
                        end
                    end
                end
            end
        end
    end.
Proof.
  intros Hw Hin. unfold run, bind, perform, ret, panic. webhook_set Hw. simpl.
  rewrite Hin.
  destruct (json_Unmarshal payload) as [event | e]; [| reflexivity].
  destruct (types.Decoded_Entity event) as [entity |]; [| reflexivity].
  destruct (Entity_Validate entity); [reflexivity |].
  destruct (types.Decoded_Check event) as [check |]; [| reflexivity].
  destruct (Check_Validate check); [reflexivity |].
  destruct (sendMessage cfg world _ _) as [[[e |] | v] log']; reflexivity.
Qed.

(** The same for a document that has an entity and a check. *)
Lemma run_reads_event (payload : string) (event : types.Event)
    (log : list Effect) :
  webhookURL cfg <> "" ->
  stdin_ReadAll world = inl payload ->
  json_Unmarshal payload = inl (types.pointers event) ->
  run cfg world [] log
  = match Entity_Validate (types.Event_Entity event) with
    | Some err => (Returned (Some err), (log ++ [ReadStdin])%list)
    | None =>
        match Check_Validate (types.Event_Check event) with
        | Some err => (Returned (Some err), (log ++ [ReadStdin])%list)
        | None =>
            match sendMessage cfg world event (log ++ [ReadStdin])%list with
            | (Returned (Some err), log') =>
                (Returned (Some (errors_New (Error err))), log')
            | (Returned None, log') => (Returned None, log')
            | (Panicked v, log') => (Panicked v, log')
            end
        end
    end.
Proof.
  intros Hw Hin Hdec. rewrite (run_reads payload log Hw Hin), Hdec.
  now destruct event as [entity check].
Qed.

(** [sendMessage] when the request cannot be built: nothing is sent. *)
Lemma sendMessage_no_request (event : types.Event) (e : url.parse_error)
    (log : list Effect) :
  http.NewRequest "POST" (webhookURL cfg)
                  (json_Marshal (NewEventMessage cfg event)) = url.Err e ->
  sendMessage cfg world event log = (Panicked PanicNilDereference, log).
Proof. intros H. go_unfold. now rewrite H. Qed.

(** [sendMessage] when the request is built: it is sent, once. *)
Lemma sendMessage_request (event : types.Event) (req : http.Request)
    (log : list Effect) :
  http.NewRequest "POST" (webhookURL cfg)
                  (json_Marshal (NewEventMessage cfg event)) = url.Ok req ->
  let sent := http.Header_Set "Content-Type" "application/json" req in
  sendMessage cfg world event log
  = match client_Do world sent with
    | inr err => (Panicked (PanicError err), (log ++ [HTTPDo sent])%list)
    | inl resp =>
        match Body_Close world resp with
        | Some err =>
            (Panicked (PanicError err),
             ((log ++ [HTTPDo sent]) ++ [CloseBody resp])%list)
        | None =>
            (Returned None, ((log ++ [HTTPDo sent]) ++ [CloseBody resp])%list)
        end
    end.
Proof.
  intros H sent. subst sent. go_unfold. rewrite H.
  destruct (client_Do world _) as [resp | err]; [| reflexivity].
  destruct (Body_Close world resp); reflexivity.
Qed.

End Pipeline.

(** C7: with an empty webhook URL, [run] returns an error after printing
    the help text and nothing else: ["webhook url is empty"] (or, when
    positional arguments were left over, the error of the check that
    precedes it, ["invalid argument(s) received"]).  Standard input is not
    read and no HTTP call is made, whatever standard input holds, and the
    process exits with status 1. *)
Theorem empty_webhook_fails_first {collaborators : Collaborators}
    (cfg : Config) (world : World) (args : list string) :
  webhookURL cfg = "" ->
  run cfg world args []
  = (Returned (Some (match args with
                     | [] => errorString "webhook url is empty"
                     | _ :: _ => errors_New "invalid argument(s) received"
                     end)),
     [PrintHelp])
  /\ stdin_was_read (effects (main cfg world args)) = false
  /\ http_calls (effects (main cfg world args)) = []
  /\ status (main cfg world args) = 1%Z.
Proof.
  intros H. unfold main.
  destruct args as [| a args].
  - rewrite (run_empty_webhook cfg world [] H). repeat split.
  - rewrite run_stray_arguments. repeat split.
Qed.

Lemma empty_webhook_fails_first_witness :
  let cfg := flag_webhook_url "" Double.config in
  let world := Double.world_up Double.payload_e1 in
  webhookURL cfg = ""
  /\ @run Double.collaborators cfg world [] []
     = (Returned (Some (errorString "webhook url is empty")), [PrintHelp])
  /\ stdin_was_read (effects (@main Double.collaborators cfg world [])) = false
  /\ http_calls (effects (@main Double.collaborators cfg world [])) = []
  /\ status (@main Double.collaborators cfg world []) = 1%Z.
Proof.
  intros cfg world. split; [reflexivity |].
  apply (@empty_webhook_fails_first Double.collaborators cfg world []).
  reflexivity.
Defined.

(** C6: when the bytes read from standard input do not decode as an
    event, no HTTP call is made and the process exits with a non-zero
    status; in an invocation that gets as far as reading them (no stray
    argument, a webhook URL), [run] returns the error
    ["failed to unmarshal stdin data: "] followed by the payload itself,
    having done nothing but read standard input. *)
Theorem undecodable_input_is_reported {collaborators : Collaborators}
    (cfg : Config) (world : World) (args : list string)
    (payload : string) (err : error) :
  stdin_ReadAll world = inl payload ->
  json_Unmarshal payload = inr err ->
  http_calls (effects (main cfg world args)) = []
  /\ status (main cfg world args) = 1%Z
  /\ (args = [] -> webhookURL cfg <> "" ->
      run cfg world args []
      = (Returned (Some (errorString
                           ("failed to unmarshal stdin data: " ++ payload))),
         [ReadStdin])).
Proof.
  intros Hin Hdec.
  destruct args as [| a args].
  - destruct (String.eqb_spec (webhookURL cfg) "") as [Hw | Hw].
    + unfold main. rewrite (run_empty_webhook cfg world [] Hw).
      repeat split. intros _ Hw'. contradiction.
    + unfold main. rewrite (run_reads cfg world payload [] Hw Hin), Hdec.
      repeat split.
  - unfold main. rewrite run_stray_arguments.
    repeat split. intros Hargs. discriminate.
Qed.

Lemma undecodable_input_is_reported_witness :
  let world := Double.world_up Double.truncated_payload in
  stdin_ReadAll world = inl Double.truncated_payload
  /\ @json_Unmarshal Double.collaborators Double.truncated_payload
     = inr (otherError "unexpected end of JSON input")
  /\ http_calls (effects (@main Double.collaborators Double.config world []))
     = []
  /\ status (@main Double.collaborators Double.config world []) = 1%Z
  /\ @run Double.collaborators Double.config world [] []
     = (Returned (Some (errorString
                          ("failed to unmarshal stdin data: "
                           ++ Double.truncated_payload))),
        [ReadStdin]).
Proof.
  intros world. split; [reflexivity | split; [reflexivity |]].
  destruct (@undecodable_input_is_reported Double.collaborators Double.config
              world [] Double.truncated_payload
              (otherError "unexpected end of JSON input")
              eq_refl eq_refl) as (Hcalls & Hstatus & Hrun).
  split; [exact Hcalls | split; [exact Hstatus |]].
  apply Hrun; [reflexivity | discriminate].
Defined.

(** X14: when the decoded event has an entity and a validator returns an
    error, [run] returns that very error value (the entity's when both
    fail, as it is asked first, and also when the check is missing),
    having done nothing but read standard input. *)
Theorem validator_error_returned {collaborators : Collaborators}
    (cfg : Config) (world : World) (payload : string)
    (decoded : types.Decoded) (entity : types.Entity) :
  webhookURL cfg <> "" ->
  stdin_ReadAll world = inl payload ->
  json_Unmarshal payload = inl decoded ->
  types.Decoded_Entity decoded = Some entity ->
  Entity_Validate entity <> None
  \/ (exists check, types.Decoded_Check decoded = Some check
                    /\ Check_Validate check <> None) ->
  exists err : error,
    run cfg world [] [] = (Returned (Some err), [ReadStdin])
    /\ (Entity_Validate entity = Some err
        \/ (Entity_Validate entity = None
            /\ exists check, types.Decoded_Check decoded = Some check
                             /\ Check_Validate check = Some err)).
Proof.
  intros Hw Hin Hdec Hentity Hinvalid.
  rewrite (run_reads cfg world payload [] Hw Hin), Hdec, Hentity.
  destruct (Entity_Validate entity) as [e |] eqn:He.
  - exists e. split; [reflexivity | now left].
  - destruct Hinvalid as [Hn | (check & Hcheck & Hn)]; [now contradiction Hn |].
    rewrite Hcheck.
    destruct (Check_Validate check) as [e |] eqn:Hc; [| now contradiction Hn].
    exists e. split; [reflexivity |]. right. split; [reflexivity |].
    now exists check.
Qed.

Lemma validator_error_returned_witness :
  let world := Double.world_up Double.payload_unnamed in
  let entity := types.mkEntity "default" "" in
  webhookURL Double.config <> ""
  /\ @Entity_Validate Double.collaborators entity
     = Some (otherError "entity name must not be empty")
  /\ exists err : error,
      @run Double.collaborators Double.config world [] []
      = (Returned (Some err), [ReadStdin])
      /\ (@Entity_Validate Double.collaborators entity = Some err
          \/ (@Entity_Validate Double.collaborators entity = None
              /\ exists check,
                  types.Decoded_Check (types.pointers Double.event_unnamed)
                  = Some check
                  /\ @Check_Validate Double.collaborators check = Some err)).
Proof.
  intros world entity.
  assert (Hw : webhookURL Double.config <> "") by discriminate.
  split; [exact Hw | split; [reflexivity |]].
  apply (@validator_error_returned Double.collaborators Double.config world
           Double.payload_unnamed (types.pointers Double.event_unnamed)
           entity Hw eq_refl eq_refl eq_refl).
  left. discriminate.
Defined.

(** C8 does not hold of a document that lacks the entity, or has a valid
    entity and lacks the check: [run] calls [Validate] on the nil pointer,
    which dereferences it.  There [run] panics instead of returning a
    validation error: the process ends with status 2 and the runtime's
    nil-dereference message; no HTTP call is made. *)
Theorem missing_entity_panics {collaborators : Collaborators}
    (cfg : Config) (world : World) (payload : string)
    (decoded : types.Decoded) :
  webhookURL cfg <> "" ->
  stdin_ReadAll world = inl payload ->
  json_Unmarshal payload = inl decoded ->
  types.Decoded_Entity decoded = None
  \/ (exists entity, types.Decoded_Entity decoded = Some entity
                     /\ Entity_Validate entity = None
                     /\ types.Decoded_Check decoded = None) ->
  run cfg world [] [] = (Panicked PanicNilDereference, [ReadStdin])
  /\ (forall err, fst (run cfg world [] []) <> Returned (Some err))
  /\ main cfg world []
     = mkExit 2
         ["panic: runtime error: invalid memory address or nil pointer dereference"]
         [ReadStdin]
  /\ http_calls (effects (main cfg world [])) = [].
Proof.
  intros Hw Hin Hdec Hnil.
  assert (Hrun : run cfg world [] []
                 = (Panicked PanicNilDereference, [ReadStdin])).
  { rewrite (run_reads cfg world payload [] Hw Hin), Hdec.
    destruct Hnil as [Hn | (entity & He & Hv & Hc)].
    - now rewrite Hn.
    - now rewrite He, Hv, Hc. }
  unfold main. rewrite Hrun. repeat split. discriminate.
Qed.

Lemma missing_entity_panics_witness :
  let world := Double.world_up "{}" in
  let decoded := types.mkDecoded None None in
  webhookURL Double.config <> ""
  /\ stdin_ReadAll world = inl "{}"
  /\ @json_Unmarshal Double.collaborators "{}" = inl decoded
  /\ types.Decoded_Entity decoded = None
  /\ @run Double.collaborators Double.config world [] []
     = (Panicked PanicNilDereference, [ReadStdin])
  /\ status (@main Double.collaborators Double.config world []) = 2%Z
  /\ http_calls (effects (@main Double.collaborators Double.config world []))
     = [].
Proof.
  intros world decoded.
  assert (Hw : webhookURL Double.config <> "") by discriminate.
  split; [exact Hw | split; [reflexivity | split; [reflexivity |]]].
  split; [reflexivity |].
  destruct (@missing_entity_panics Double.collaborators Double.config world
              "{}" decoded Hw eq_refl eq_refl (or_introl eq_refl))
    as (Hrun & _ & Hmain & Hcalls).
  split; [exact Hrun |]. split; [now rewrite Hmain | exact Hcalls].
Defined.

(** C9: in an invocation that reaches the send, when the request cannot be
    built (the webhook URL does not parse) or cannot be executed (the
    client returns an error), the process does not report success: it
    ends with a non-zero exit status (2, that of a panic nothing recovers)
    and one message on standard error.  When the request could not be
    built, nothing reached the network and the message is the runtime's
    nil-dereference message; when the client failed, the request was sent
    once and the message is ["panic: "] followed by the client's error. *)
Theorem send_failure_is_fatal {collaborators : Collaborators}
    (cfg : Config) (world : World) (payload : string) (event : types.Event) :
  webhookURL cfg <> "" ->
  stdin_ReadAll world = inl payload ->
  json_Unmarshal payload = inl (types.pointers event) ->
  Entity_Validate (types.Event_Entity event) = None ->
  Check_Validate (types.Event_Check event) = None ->
  let built :=
    http.NewRequest "POST" (webhookURL cfg)
                    (json_Marshal (NewEventMessage cfg event)) in
  (exists e, built = url.Err e)
  \/ (exists req err,
         built = url.Ok req
         /\ client_Do world
              (http.Header_Set "Content-Type" "application/json" req)
            = inr err) ->
  let exit := main cfg world [] in
  status exit <> 0%Z
  /\ status exit = 2%Z
  /\ (exists message, stderr exit = [message])
  /\ ((exists e, built = url.Err e) -> http_calls (effects exit) = [])
  /\ ((exists e, built = url.Err e) ->
      stderr exit
      = ["panic: runtime error: invalid memory address or nil pointer dereference"]
      /\ effects exit = [ReadStdin])
  /\ (forall req err,
        built = url.Ok req ->
        client_Do world
          (http.Header_Set "Content-Type" "application/json" req)
        = inr err ->
        stderr exit = ["panic: " ++ Error err]
        /\ effects exit
           = [ReadStdin;
              HTTPDo (http.Header_Set "Content-Type" "application/json" req)]).
Proof.
  intros Hw Hin Hdec Hentity Hcheck built Hfail exit. subst built exit.
  unfold main.
  rewrite (run_reads_event cfg world payload event [] Hw Hin Hdec), Hentity,
    Hcheck.
  destruct Hfail as [[e He] | (req & err & Hreq & Hdo)].
  - rewrite (sendMessage_no_request cfg world event e _ He); simpl.
    repeat split; try discriminate; eauto; congruence.
  - rewrite (sendMessage_request cfg world event req _ Hreq), Hdo; simpl.
    repeat split; try discriminate; eauto;
      try (intros [e' He']; congruence);
      try (match goal with
           | H : exists _, _ = url.Err _ |- _ => destruct H; congruence
           end);
      congruence.
Qed.

Lemma send_failure_is_fatal_witness :
  let world := Double.world_down Double.payload_e1 in
  let built :=
    http.NewRequest "POST" (webhookURL Double.config)
      (@json_Marshal Double.collaborators
         (@NewEventMessage Double.collaborators Double.config Double.event_e1)) in
  let exit := @main Double.collaborators Double.config world [] in
  webhookURL Double.config <> ""
  /\ stdin_ReadAll world = inl Double.payload_e1
  /\ @json_Unmarshal Double.collaborators Double.payload_e1
     = inl (types.pointers Double.event_e1)
  /\ @Entity_Validate Double.collaborators
       (types.Event_Entity Double.event_e1) = None
  /\ @Check_Validate Double.collaborators
       (types.Event_Check Double.event_e1) = None
  /\ ((exists e, built = url.Err e)
      \/ (exists req err,
             built = url.Ok req
             /\ client_Do world
                  (http.Header_Set "Content-Type" "application/json" req)
                = inr err))
  /\ status exit <> 0%Z
  /\ status exit = 2%Z
  /\ stderr exit = ["panic: dial tcp: connection refused"]
  /\ List.length (http_calls (effects exit)) = 1.
Proof.
  intros world built exit.
  assert (Hw : webhookURL Double.config <> "") by discriminate.
  assert (Hfail : (exists e, built = url.Err e)
                  \/ (exists req err,
                         built = url.Ok req
                         /\ client_Do world
                              (http.Header_Set "Content-Type"
                                 "application/json" req)
                            = inr err)).
  { right. destruct built as [req | e] eqn:Hbuilt.
    - exists req, (otherError "dial tcp: connection refused").
      split; reflexivity.
    - discriminate Hbuilt. }
  split; [exact Hw |].
  split; [reflexivity |].
  split; [reflexivity |].
  split; [reflexivity |].
  split; [reflexivity |].
  split; [exact Hfail |].
  destruct (@send_failure_is_fatal Double.collaborators Double.config world
              Double.payload_e1 Double.event_e1
              Hw eq_refl eq_refl eq_refl eq_refl Hfail)
    as (Hnz & H2 & _ & _ & _ & Hdo).
  split; [exact Hnz | split; [exact H2 |]].
  destruct built as [req | e] eqn:Hbuilt; [| discriminate Hbuilt].
  destruct (Hdo req (otherError "dial tcp: connection refused")
              Hbuilt eq_refl) as [Hstderr Heffects].
  split; [exact Hstderr |]. unfold exit. now rewrite Heffects.
Defined.

(** ** Facts about [strings] and [net/url] *)

Module url_facts.

Import url.

Lemma Split_nonempty (s : string) (sep : ascii) : strings.Split s sep <> [].
Proof.
  destruct s as [| c s]; simpl; [discriminate |].
  destruct (Ascii.eqb c sep); [discriminate |].
  destruct (strings.Split s sep); discriminate.
Qed.

(** Joining what was split gives the string back. *)
Lemma Join_Split (s : string) :
  strings.Join (strings.Split s "/") "/" = s.
Proof.
  induction s as [| c s IH]; [reflexivity |].
  simpl strings.Split.
  destruct (Ascii.eqb_spec c "/") as [-> | Hc].
  - pose proof (Split_nonempty s "/") as Hne.
    destruct (strings.Split s "/") as [| h t]; [contradiction |].
    change (strings.Join ("" :: h :: t) "/")
      with ("" ++ "/" ++ strings.Join (h :: t) "/").
    now rewrite IH.
  - pose proof (Split_nonempty s "/") as Hne.
    destruct (strings.Split s "/") as [| h t]; [contradiction |].
    destruct t as [| h' t].
    + simpl in *. now rewrite IH.
    + change (strings.Join (String c h :: h' :: t) "/")
        with (String c (h ++ "/" ++ strings.Join (h' :: t) "/")).
      change (strings.Join (h :: h' :: t) "/")
        with (h ++ "/" ++ strings.Join (h' :: t) "/") in IH.
      now rewrite IH.
Qed.

Lemma resolve_elems_plain (src dst : list string) :
  forallb plain src = true -> resolve_elems src dst = (dst ++ src)%list.
Proof.
  revert dst. induction src as [| elem src IH]; intros dst H; simpl.
  - now rewrite app_nil_r.
  - simpl in H. apply andb_prop in H as [He Hs].
    unfold plain in He. apply andb_prop in He as [H1 H2].
    apply negb_true_iff in H1, H2. rewrite H1, H2.
    rewrite IH by assumption. now rewrite <- app_assoc.
Qed.

Lemma last_plain (src : list string) :
  src <> [] -> forallb plain src = true -> plain (List.last src "") = true.
Proof.
  induction src as [| a src IH]; intros Hne H; [contradiction |].
  simpl in H. apply andb_prop in H as [Ha Hs].
  destruct src as [| b src]; [exact Ha |].
  change (List.last (a :: b :: src) "") with (List.last (b :: src) "").
  apply IH; [discriminate | exact Hs].
Qed.


(** ... and is the resolved path when it has no dot segment. *)
Lemma resolvePath_absolute_plain (base ref : string) :
  strings.HasPrefix ref "/" = true ->
  dot_free ref = true ->
  resolvePath base ref = ref.
Proof.
  intros Habs Hplain.
  destruct ref as [| c ref]; [discriminate |].
  assert (c = "/"%char) as ->.
  { simpl in Habs. destruct (Ascii.eqb_spec c "/"); [assumption | discriminate]. }
  unfold resolvePath.
  change (negb (Ascii.eqb "/" "/")) with false. cbv iota beta.
  change (String.eqb (String "/" ref) "") with false. cbv iota.
  unfold dot_free in Hplain.
  rewrite (resolve_elems_plain _ [] Hplain). simpl app.
  pose proof (last_plain _ (Split_nonempty _ _) Hplain) as Hlast.
  unfold plain in Hlast. apply andb_prop in Hlast as [H1 H2].
  apply negb_true_iff in H1, H2. rewrite H1, H2. simpl orb. cbv iota.
  change ("" :: strings.Split ref "/")
    with (strings.Split (String "/" ref) "/").
  rewrite Join_Split. unfold strings.TrimPrefix. rewrite Habs. reflexivity.
Qed.







Lemma unescape_check_plain (c : ascii) (s : string) (n : nat) :
  Ascii.eqb c "%" = false ->
  unescape_check encodePath (String c s) n false
  = unescape_check encodePath s n false.
Proof. intros Hc. simpl. rewrite Hc. now destruct (Ascii.eqb c "+"). Qed.








Lemma path_reference_fields (ref : URL) :
  path_reference ref = true ->
  Scheme ref = "" /\ Host ref = "" /\ User ref = None /\ Opaque ref = "".
Proof.
  unfold path_reference. intros H.
  apply andb_prop in H as [H Ho]. apply andb_prop in H as [H Hu].
  apply andb_prop in H as [Hs Hh].
  apply String.eqb_eq in Hs, Hh, Ho.
  destruct (User ref); [discriminate |]. now repeat split.
Qed.

(** Resolving a reference that has a path only: the URL that [setPath]
    is given, and the path it is given. *)
Lemma ResolveReference_path_reference (base ref : URL) :
  path_reference ref = true ->
  exists url : URL,
    ResolveReference base ref
    = setPath_ignore url (resolvePath (EscapedPath base) (EscapedPath ref))
    /\ Scheme url = Scheme base /\ Host url = Host base
    /\ User url = User base /\ Path url = Path ref
    /\ forall (p rp : string),
        ResolveReference (set_RawPath rp (set_Path p base)) ref
        = setPath_ignore url
            (resolvePath (EscapedPath (set_RawPath rp (set_Path p base)))
                         (EscapedPath ref)).
Proof.
  intros H. destruct (path_reference_fields ref H) as (Hs & Hh & Hu & Ho).
  unfold ResolveReference. rewrite Hs, Hh, Hu, Ho. simpl.
  destruct (String.eqb (Path ref) "" && String.eqb (RawQuery ref) "");
    [destruct (String.eqb (Fragment ref) "") |];
    (eexists; split; [reflexivity |]; repeat split).
Qed.

(** ** Parsing a path that starts with one slash *)




Lemma rooted_slash (s : string) :
  rooted s = true ->
  exists t, s = String "/" t /\ strings.HasPrefix t "/" = false.
Proof.
  unfold rooted. destruct s as [| c s]; [discriminate |]. simpl.
  destruct (Ascii.eqb_spec c "/") as [-> | Hc]; [| discriminate]. simpl.
  intros H. exists s. split; [reflexivity |].
  destruct s as [| d s]; [reflexivity |]. simpl in *.
  now destruct (Ascii.eqb d "/").
Qed.





End url_facts.

(** ** Dot segments *)

Module resolve_facts.

Import url.






























End resolve_facts.

(** ** The link *)

Lemma http_calls_app (log1 log2 : list Effect) :
  http_calls (log1 ++ log2) = (http_calls log1 ++ http_calls log2)%list.
Proof.
  induction log1 as [| e log1 IH]; [reflexivity |].
  destruct e; simpl; now rewrite IH.
Qed.

Section Link.

Context {collaborators : Collaborators}.
Variable cfg : Config.


Lemma getLink_unparsed (event : types.Event) :
  (exists e, url.Parse (dashboard cfg) = url.Err e)
  \/ (exists e, url.Parse (Event_URIPath event) = url.Err e) ->
  getLink cfg event = "".
Proof.
  unfold getLink, resolveLink. intros [[e He] | [e He]]; rewrite He.
  - reflexivity.
  - now destruct (url.Parse (dashboard cfg)).
Qed.

End Link.




(** C4, as the specification states it, fails on its two examples:
    ["not a url"] parses (it is a relative path, which [url.Parse]
    accepts), so that the link is not empty with it as the base, nor with
    it as the event's path. *)
Lemma not_a_url_parses :
  url.Parse "not a url"
  = url.Ok (url.mkURL "" "" None "" "not a url" "not a url" false "" "")
  /\ resolveLink "not a url" "/events/e1" = "/events/e1"
  /\ resolveLink "not a url" "/events/e1" <> ""
  /\ resolveLink "https://dash.example.com/" "not a url"
     = "https://dash.example.com/not%20a%20url"
  /\ resolveLink "https://dash.example.com/" "not a url" <> "".
Proof.
  repeat split; try reflexivity; discriminate.
Qed.

(** C4, amended: when the dashboard URL or the event's path does not
    parse, the link is the empty string, the message is composed all the
    same with an empty uri in its target, and an invocation that reaches
    the send posts that message.  A base with a space in its host
    (["http://not a url/"]) and a path with a malformed escape (["%zz"])
    are two such inputs. *)
Theorem unparsable_link_is_empty {collaborators : Collaborators}
    (cfg : Config) (world : World) (event : types.Event) :
  (exists e, url.Parse (dashboard cfg) = url.Err e)
  \/ (exists e, url.Parse (Event_URIPath event) = url.Err e) ->
  getLink cfg event = ""
  /\ NewEventMessage cfg event
     = mkMessage (getColor event) (getMessageStatus event) (channel cfg)
         [mkSection (types.Check_Output (types.Event_Check event))]
         [mkPotentialAction "OpenUri" "View in Sensu"
            [mkTarget "default" ""]]
  /\ (forall (payload : string) (req : http.Request),
        webhookURL cfg <> "" ->
        stdin_ReadAll world = inl payload ->
        json_Unmarshal payload = inl (types.pointers event) ->
        Entity_Validate (types.Event_Entity event) = None ->
        Check_Validate (types.Event_Check event) = None ->
        http.NewRequest "POST" (webhookURL cfg)
                        (json_Marshal (NewEventMessage cfg event))
        = url.Ok req ->
        http_calls (effects (main cfg world []))
        = [http.Header_Set "Content-Type" "application/json" req]
        /\ http.Body req = json_Marshal (NewEventMessage cfg event))
  /\ resolveLink "http://not a url/" "/events/e1" = ""
  /\ resolveLink "https://dash.example.com/" "%zz" = "".
Proof.
  intros Hfail. pose proof (getLink_unparsed cfg event Hfail) as Hlink.
  split; [exact Hlink |].
  split; [now rewrite NewEventMessage_eq, Hlink |].
  split; [| split; reflexivity].
  intros payload req Hw Hin Hdec Hentity Hcheck Hreq. split.
  - unfold main.
    rewrite (run_reads_event cfg world payload event [] Hw Hin Hdec), Hentity,
    Hcheck.
    rewrite (sendMessage_request cfg world event req _ Hreq).
    destruct (client_Do world _) as [resp | err]; [| reflexivity].
    destruct (Body_Close world resp); reflexivity.
  - unfold http.NewRequest, url.bind in Hreq.
    destruct (url.Parse (webhookURL cfg)); [| discriminate].
    now injection Hreq as <-.
Qed.

Lemma unparsable_link_is_empty_witness :
  let cfg := Double.config_bad_dashboard in
  let world := Double.world_up Double.payload_e1 in
  ((exists e, url.Parse (dashboard cfg) = url.Err e)
   \/ (exists e,
          url.Parse (@Event_URIPath Double.collaborators Double.event_e1)
          = url.Err e))
  /\ @getLink Double.collaborators cfg Double.event_e1 = ""
  /\ map Targets
       (PotentialActions
          (@NewEventMessage Double.collaborators cfg Double.event_e1))
     = [[mkTarget "default" ""]]
  /\ List.length
       (http_calls (effects (@main Double.collaborators cfg world [])))
     = 1.
Proof.
  intros cfg world.
  assert (Hfail : (exists e, url.Parse (dashboard cfg) = url.Err e)
                  \/ (exists e,
                         url.Parse (@Event_URIPath Double.collaborators
                                      Double.event_e1)
                         = url.Err e)).
  { left. exists (url.InvalidHostError " "). reflexivity. }
  split; [exact Hfail |].
  destruct (@unparsable_link_is_empty Double.collaborators cfg world
              Double.event_e1 Hfail) as (Hlink & Hmessage & Hsend & _).
  split; [exact Hlink |].
  split; [now rewrite Hmessage |].
  destruct (http.NewRequest "POST" (webhookURL cfg)
              (@json_Marshal Double.collaborators
                 (@NewEventMessage Double.collaborators cfg Double.event_e1)))
    as [req | e] eqn:Hreq; [| discriminate Hreq].
  assert (Hw : webhookURL cfg <> "") by discriminate.
  destruct (Hsend Double.payload_e1 req Hw eq_refl eq_refl eq_refl eq_refl eq_refl)
    as [Hcalls _].
  now rewrite Hcalls.
Defined.

(** * Further properties of the pipeline *)

Section PipelineShape.

Context {collaborators : Collaborators}.
Variables (cfg : Config) (world : World).

(** The four ways [sendMessage] can go. *)
Lemma sendMessage_cases (event : types.Event) (log : list Effect) :
  let built :=
    http.NewRequest "POST" (webhookURL cfg)
                    (json_Marshal (NewEventMessage cfg event)) in
  let r := sendMessage cfg world event log in
  ((exists e, built = url.Err e)
   /\ r = (Panicked PanicNilDereference, log))
  \/ (exists req err,
         built = url.Ok req
         /\ r = (Panicked (PanicError err),
                 (log ++ [HTTPDo (http.Header_Set "Content-Type"
                                    "application/json" req)])%list))
  \/ (exists req resp err,
         built = url.Ok req
         /\ r = (Panicked (PanicError err),
                 (log ++ [HTTPDo (http.Header_Set "Content-Type"
                                    "application/json" req);
                          CloseBody resp])%list))
  \/ (exists req resp,
         built = url.Ok req
         /\ r = (Returned None,
                 (log ++ [HTTPDo (http.Header_Set "Content-Type"
                                    "application/json" req);
                          CloseBody resp])%list)).
Proof.
  intros built r. subst r.
  destruct built as [req | e] eqn:Hbuilt; subst built.
  - rewrite (sendMessage_request cfg world event req log Hbuilt).
    right.
    destruct (client_Do world _) as [resp | err].
    + destruct (Body_Close world resp) as [err |];
        rewrite <- app_assoc; simpl app.
      * right; left. now exists req, resp, err.
      * right; right. now exists req, resp.
    + left. now exists req, err.
  - left. split; [now exists e |].
    now apply sendMessage_no_request with (e := e).
Qed.

(** [sendMessage] returns nil or panics. *)
Lemma sendMessage_never_fails (event : types.Event) (log : list Effect)
    (err : error) :
  fst (sendMessage cfg world event log) <> Returned (Some err).
Proof.
  destruct (sendMessage_cases event log)
    as [[_ H] | [(? & ? & _ & H) | [(? & ? & ? & _ & H) | (? & ? & _ & H)]]];
    rewrite H; discriminate.
Qed.

(** The six ways a call of [run] can go. *)
Lemma run_cases (args : list string) :
  let r := run cfg world args [] in
  ((args <> [] \/ webhookURL cfg = "")
   /\ exists err, r = (Returned (Some err), [PrintHelp]))
  \/ (args = [] /\ webhookURL cfg <> ""
      /\ exists err, r = (Returned (Some err), [ReadStdin]))
  \/ (args = [] /\ webhookURL cfg <> ""
      /\ r = (Panicked PanicNilDereference, [ReadStdin]))
  \/ (args = [] /\ webhookURL cfg <> ""
      /\ exists req err,
          r = (Panicked (PanicError err), [ReadStdin; HTTPDo req])
          /\ client_Do world req = inr err)
  \/ (args = [] /\ webhookURL cfg <> ""
      /\ exists req resp err,
          r = (Panicked (PanicError err),
               [ReadStdin; HTTPDo req; CloseBody resp])
          /\ client_Do world req = inl resp
          /\ Body_Close world resp = Some err)
  \/ (args = [] /\ webhookURL cfg <> ""
      /\ exists req resp,
          r = (Returned None, [ReadStdin; HTTPDo req; CloseBody resp])
          /\ client_Do world req = inl resp
          /\ Body_Close world resp = None).
Proof.
  intros r. subst r.
  destruct args as [| a args].
  2:{ rewrite run_stray_arguments. left.
      split; [left; discriminate | eauto]. }
  destruct (String.eqb_spec (webhookURL cfg) "") as [Hw | Hw].
  { rewrite (run_empty_webhook cfg world [] Hw). left.
    split; [now right | eauto]. }
  right.
  destruct (stdin_ReadAll world) as [payload | err] eqn:Hin.
  2:{ unfold run, bind, perform, ret. webhook_set Hw. simpl. rewrite Hin.
      left. repeat split; eauto. }
  rewrite (run_reads cfg world payload [] Hw Hin).
  destruct (json_Unmarshal payload) as [decoded | e];
    [| left; repeat split; eauto].
  destruct (types.Decoded_Entity decoded) as [entity |];
    [| right; left; repeat split; eauto].
  destruct (Entity_Validate entity); [left; repeat split; eauto |].
  destruct (types.Decoded_Check decoded) as [check |];
    [| right; left; repeat split; eauto].
  destruct (Check_Validate check); [left; repeat split; eauto |].
  right.
  unfold sendMessage, bind, perform, ret, panic.
  destruct (http.NewRequest "POST" (webhookURL cfg) _) as [req | e];
    [| left; repeat split; eauto].
  right. simpl.
  destruct (client_Do world _) as [resp | err] eqn:Hdo;
    [| left; repeat split; eauto].
  right.
  destruct (Body_Close world resp) as [err |] eqn:Hclose.
  - left. repeat split; eauto.
    eexists _, resp, err. repeat split; eauto.
  - right. repeat split; eauto.
    eexists _, resp. repeat split; eauto.
Qed.

End PipelineShape.

(** X1: an invocation without stray arguments, with a webhook URL that
    parses, an input that decodes to an event which both validators accept,
    and a client that answers, sends exactly one request and succeeds:
    the request is a POST to the parsed webhook URL, its only header is
    [Content-Type: application/json], its body is the serialized message of
    the event; the response body is closed, nothing is written to standard
    error and the exit status is 0, whatever the response's status code. *)
Theorem successful_send {collaborators : Collaborators}
    (cfg : Config) (world : World) (payload : string) (event : types.Event)
    (target : url.URL) (resp : http.Response) :
  webhookURL cfg <> "" ->
  stdin_ReadAll world = inl payload ->
  json_Unmarshal payload = inl (types.pointers event) ->
  Entity_Validate (types.Event_Entity event) = None ->
  Check_Validate (types.Event_Check event) = None ->
  url.Parse (webhookURL cfg) = url.Ok target ->
  let req :=
    http.mkRequest "POST"
      (url.set_Host (http.removeEmptyPort (url.Host target)) target)
      [("Content-Type", "application/json")]
      (json_Marshal (NewEventMessage cfg event)) in
  client_Do world req = inl resp ->
  Body_Close world resp = None ->
  main cfg world []
  = mkExit 0 [] [ReadStdin; HTTPDo req; CloseBody resp].
Proof.
  intros Hw Hin Hdec Hentity Hcheck Htarget req Hdo Hclose.
  unfold main.
  rewrite (run_reads_event cfg world payload event [] Hw Hin Hdec), Hentity,
    Hcheck.
  assert (Hreq : http.NewRequest "POST" (webhookURL cfg)
                   (json_Marshal (NewEventMessage cfg event))
                 = url.Ok (http.mkRequest "POST"
                             (url.set_Host
                                (http.removeEmptyPort (url.Host target)) target)
                             [] (json_Marshal (NewEventMessage cfg event)))).
  { unfold http.NewRequest. now rewrite Htarget. }
  rewrite (sendMessage_request cfg world event _ _ Hreq).
  change (http.Header_Set "Content-Type" "application/json" _) with req.
  now rewrite Hdo, Hclose.
Qed.

Lemma successful_send_witness :
  let cfg := Double.config in
  let world := Double.world_500 Double.payload_e1 in
  let target :=
    url.mkURL "https" "" None "outlook.office.com" "/webhook/abc" "" false
              "" "" in
  let resp := http.mkResponse 500 "Internal Server Error" in
  let req :=
    http.mkRequest "POST" target [("Content-Type", "application/json")]
      (@json_Marshal Double.collaborators
         (@NewEventMessage Double.collaborators cfg Double.event_e1)) in
  webhookURL cfg <> ""
  /\ url.Parse (webhookURL cfg) = url.Ok target
  /\ client_Do world req = inl resp
  /\ @main Double.collaborators cfg world []
     = mkExit 0 [] [ReadStdin; HTTPDo req; CloseBody resp].
Proof.
  intros cfg world target resp req.
  assert (Hw : webhookURL cfg <> "") by discriminate.
  split; [exact Hw |].
  split; [reflexivity |].
  split; [reflexivity |].
  exact (@successful_send Double.collaborators cfg world Double.payload_e1
           Double.event_e1 target resp
           Hw eq_refl eq_refl eq_refl eq_refl eq_refl eq_refl eq_refl).
Defined.

(** X2: no invocation makes more than one HTTP call, whatever the
    configuration, the arguments, the input and the network. *)
Theorem at_most_one_http_call {collaborators : Collaborators}
    (cfg : Config) (world : World) (args : list string) :
  List.length (http_calls (effects (main cfg world args))) <= 1.
Proof.
  unfold main.
  destruct (run_cases cfg world args)
    as [(_ & err & H)
       | [(_ & _ & err & H)
         | [(_ & _ & H)
           | [(_ & _ & req & err & H & _)
             | [(_ & _ & req & resp & err & H & _)
               | (_ & _ & req & resp & H & _)]]]]];
    rewrite H; simpl; auto.
Qed.

(** X3: [run] returns nil only after the message was sent: there was no
    stray argument, the webhook URL was not empty, standard input was
    read, exactly one request reached the network, the client returned a
    response and its body was closed without error. *)
Theorem run_nil_means_sent {collaborators : Collaborators}
    (cfg : Config) (world : World) (args : list string) :
  fst (run cfg world args []) = Returned None ->
  exists (req : http.Request) (resp : http.Response),
    snd (run cfg world args []) = [ReadStdin; HTTPDo req; CloseBody resp]
    /\ client_Do world req = inl resp
    /\ Body_Close world resp = None
    /\ args = [] /\ webhookURL cfg <> "".
Proof.
  intros H0.
  destruct (run_cases cfg world args)
    as [(_ & err & H)
       | [(_ & _ & err & H)
         | [(_ & _ & H)
           | [(_ & _ & req & err & H & _)
             | [(_ & _ & req & resp & err & H & _)
               | (Ha & Hw & req & resp & H & Hdo & Hcl)]]]]];
    rewrite H in H0 |- *; try discriminate.
  exists req, resp. repeat split; assumption.
Qed.

Lemma run_nil_means_sent_witness :
  let r :=
    @run Double.collaborators Double.config
         (Double.world_up Double.payload_e1) [] [] in
  fst r = Returned None
  /\ exists (req : http.Request) (resp : http.Response),
      snd r = [ReadStdin; HTTPDo req; CloseBody resp]
      /\ client_Do (Double.world_up Double.payload_e1) req = inl resp
      /\ Body_Close (Double.world_up Double.payload_e1) resp = None
      /\ @nil string = [] /\ webhookURL Double.config <> "".
Proof.
  intros r. split; [reflexivity |].
  exact (@run_nil_means_sent Double.collaborators Double.config
           (Double.world_up Double.payload_e1) [] eq_refl).
Defined.

(** X4: when [run] returns an error, nothing was sent: no HTTP call was
    made, and all [run] did was print the help or read standard input. *)
Theorem run_error_means_nothing_sent {collaborators : Collaborators}
    (cfg : Config) (world : World) (args : list string) (err : error) :
  fst (run cfg world args []) = Returned (Some err) ->
  http_calls (snd (run cfg world args [])) = []
  /\ (snd (run cfg world args []) = [PrintHelp]
      \/ snd (run cfg world args []) = [ReadStdin]).
Proof.
  intros H1.
  destruct (run_cases cfg world args)
    as [(_ & e & H)
       | [(_ & _ & e & H)
         | [(_ & _ & H)
           | [(_ & _ & req & e & H & _)
             | [(_ & _ & req & resp & e & H & _)
               | (_ & _ & req & resp & H & _)]]]]];
    rewrite H in H1 |- *; try discriminate; simpl; auto.
Qed.

Lemma run_error_means_nothing_sent_witness :
  let r :=
    @run Double.collaborators Double.config
         (Double.world_up Double.payload_unnamed) [] [] in
  let err := otherError "entity name must not be empty" in
  fst r = Returned (Some err)
  /\ http_calls (snd r) = []
  /\ (snd r = [PrintHelp] \/ snd r = [ReadStdin]).
Proof.
  intros r err. split; [reflexivity |].
  exact (@run_error_means_nothing_sent Double.collaborators Double.config
           (Double.world_up Double.payload_unnamed) [] err eq_refl).
Defined.

(** X5: [run] prints the help exactly when there are stray positional
    arguments or the webhook URL is empty, and it reads standard input
    exactly when neither is the case; no call of [run] does both. *)
Theorem help_or_stdin {collaborators : Collaborators}
    (cfg : Config) (world : World) (args : list string) :
  let log := snd (run cfg world args []) in
  (In PrintHelp log <-> (args <> [] \/ webhookURL cfg = ""))
  /\ (stdin_was_read log = true <-> (args = [] /\ webhookURL cfg <> ""))
  /\ (In PrintHelp log -> stdin_was_read log = false).
Proof.
  intros log. subst log.
  assert (Hexcl : ~ ((args <> [] \/ webhookURL cfg = "")
                     /\ args = [] /\ webhookURL cfg <> ""))
    by (intros [[H | H] [Ha Hw]]; contradiction).
  destruct (run_cases cfg world args)
    as [(Hu & err & H)
       | [(Ha & Hw & err & H)
         | [(Ha & Hw & H)
           | [(Ha & Hw & req & err & H & _)
             | [(Ha & Hw & req & resp & err & H & _)
               | (Ha & Hw & req & resp & H & _)]]]]];
    rewrite H; simpl; intuition (try discriminate; try congruence; auto).
Qed.

(** X6: when standard input cannot be read, [run] returns
    ["failed to read stdin: "] followed by the message of the read error,
    having attempted nothing after the read: the input is not decoded and
    no HTTP call is made; the exit status is 1. *)
Theorem unreadable_stdin_is_reported {collaborators : Collaborators}
    (cfg : Config) (world : World) (err : error) :
  webhookURL cfg <> "" ->
  stdin_ReadAll world = inr err ->
  run cfg world [] []
  = (Returned (Some (errorString ("failed to read stdin: " ++ Error err))),
     [ReadStdin])
  /\ http_calls (effects (main cfg world [])) = []
  /\ status (main cfg world []) = 1%Z.
Proof.
  intros Hw Hin.
  assert (Hrun : run cfg world [] []
                 = (Returned (Some (errorString
                                      ("failed to read stdin: " ++ Error err))),
                    [ReadStdin])).
  { unfold run, bind, perform, ret. webhook_set Hw. simpl. now rewrite Hin. }
  split; [exact Hrun |]. unfold main. rewrite Hrun. repeat split.
Qed.

Lemma unreadable_stdin_is_reported_witness :
  let err := otherError "read /dev/stdin: input/output error" in
  webhookURL Double.config <> ""
  /\ stdin_ReadAll Double.world_no_stdin = inr err
  /\ @run Double.collaborators Double.config Double.world_no_stdin [] []
     = (Returned (Some (errorString ("failed to read stdin: " ++ Error err))),
        [ReadStdin])
  /\ http_calls
       (effects (@main Double.collaborators Double.config
                       Double.world_no_stdin [])) = []
  /\ status (@main Double.collaborators Double.config
                   Double.world_no_stdin []) = 1%Z.
Proof.
  intros err.
  assert (Hw : webhookURL Double.config <> "") by discriminate.
  split; [exact Hw | split; [reflexivity |]].
  exact (@unreadable_stdin_is_reported Double.collaborators Double.config
           Double.world_no_stdin err Hw eq_refl).
Defined.

(** X7: every error that [run] returns is one of five: the two usage
    errors, the read error, the decoding error, or the error of a
    validator.  [sendMessage] never returns an error (it returns nil or
    panics), so that the branch of [run] that wraps its error is never
    taken. *)
Theorem run_errors {collaborators : Collaborators}
    (cfg : Config) (world : World) (args : list string) (err : error) :
  fst (run cfg world args []) = Returned (Some err) ->
  (args <> [] /\ err = errors_New "invalid argument(s) received")
  \/ (webhookURL cfg = "" /\ err = errorString "webhook url is empty")
  \/ (exists e,
         stdin_ReadAll world = inr e
         /\ err = errorString ("failed to read stdin: " ++ Error e))
  \/ (exists payload e,
         stdin_ReadAll world = inl payload
         /\ json_Unmarshal payload = inr e
         /\ err = errorString ("failed to unmarshal stdin data: " ++ payload))
  \/ (exists payload decoded entity,
         stdin_ReadAll world = inl payload
         /\ json_Unmarshal payload = inl decoded
         /\ types.Decoded_Entity decoded = Some entity
         /\ (Entity_Validate entity = Some err
             \/ (Entity_Validate entity = None
                 /\ exists check,
                     types.Decoded_Check decoded = Some check
                     /\ Check_Validate check = Some err))).
Proof.
  destruct args as [| a args].
  2:{ rewrite run_stray_arguments. intros [= <-]. left.
      split; [discriminate | reflexivity]. }
  destruct (String.eqb_spec (webhookURL cfg) "") as [Hw | Hw].
  { rewrite (run_empty_webhook cfg world [] Hw). intros [= <-].
    right; left. now split. }
  destruct (stdin_ReadAll world) as [payload | e] eqn:Hin.
  2:{ unfold run, bind, perform, ret. webhook_set Hw. simpl. rewrite Hin.
      intros [= <-]. right; right; left. now exists e. }
  rewrite (run_reads cfg world payload [] Hw Hin).
  destruct (json_Unmarshal payload) as [decoded | e] eqn:Hdec.
  2:{ intros [= <-]. right; right; right; left. exists payload, e.
      now repeat split. }
  destruct (types.Decoded_Entity decoded) as [entity |] eqn:Hentity;
    [| discriminate].
  intros H. right; right; right; right. exists payload, decoded, entity.
  split; [reflexivity | split; [exact Hdec | split; [exact Hentity |]]].
  destruct (Entity_Validate entity) as [e |] eqn:He.
  { injection H as <-. now left. }
  destruct (types.Decoded_Check decoded) as [check |] eqn:Hcheck;
    [| discriminate].
  destruct (Check_Validate check) as [e |] eqn:Hc.
  { injection H as <-. right. split; [reflexivity |]. now exists check. }
  exfalso. change ([] ++ [ReadStdin])%list with [ReadStdin] in H.
  pose proof (sendMessage_never_fails cfg world (types.mkEvent entity check)
                [ReadStdin]) as Hnever.
  destruct (sendMessage cfg world (types.mkEvent entity check) [ReadStdin])
    as [[[e |] | v] log'];
    simpl in H; try discriminate.
  now apply (Hnever e).
Qed.

Lemma run_errors_witness :
  let world := Double.world_up Double.truncated_payload in
  let err :=
    errorString ("failed to unmarshal stdin data: "
                 ++ Double.truncated_payload) in
  fst (@run Double.collaborators Double.config world [] [])
  = Returned (Some err)
  /\ exists payload e,
      stdin_ReadAll world = inl payload
      /\ @json_Unmarshal Double.collaborators payload = inr e
      /\ err = errorString ("failed to unmarshal stdin data: " ++ payload).
Proof.
  intros world err. split; [reflexivity |].
  destruct (@run_errors Double.collaborators Double.config world [] err
              eq_refl)
    as [[Ha _] | [[Hw _] | [(e & Hin & _)
                           | [H | (p & d & en & Hin & Hdec & _)]]]].
  - now contradiction Ha.
  - discriminate Hw.
  - discriminate Hin.
  - exact H.
  - injection Hin as <-. discriminate Hdec.
Defined.

(** X8: when the client returned a response but closing its body fails,
    the deferred function panics: the request has reached the network, yet
    the process ends with status 2 and the close error on standard
    error. *)
Theorem close_failure_after_send {collaborators : Collaborators}
    (cfg : Config) (world : World) (payload : string) (event : types.Event)
    (target : url.URL) (resp : http.Response) (err : error) :
  webhookURL cfg <> "" ->
  stdin_ReadAll world = inl payload ->
  json_Unmarshal payload = inl (types.pointers event) ->
  Entity_Validate (types.Event_Entity event) = None ->
  Check_Validate (types.Event_Check event) = None ->
  url.Parse (webhookURL cfg) = url.Ok target ->
  let req :=
    http.mkRequest "POST"
      (url.set_Host (http.removeEmptyPort (url.Host target)) target)
      [("Content-Type", "application/json")]
      (json_Marshal (NewEventMessage cfg event)) in
  client_Do world req = inl resp ->
  Body_Close world resp = Some err ->
  main cfg world []
  = mkExit 2 ["panic: " ++ Error err]
           [ReadStdin; HTTPDo req; CloseBody resp].
Proof.
  intros Hw Hin Hdec Hentity Hcheck Htarget req Hdo Hclose.
  unfold main.
  rewrite (run_reads_event cfg world payload event [] Hw Hin Hdec), Hentity,
    Hcheck.
  assert (Hreq : http.NewRequest "POST" (webhookURL cfg)
                   (json_Marshal (NewEventMessage cfg event))
                 = url.Ok (http.mkRequest "POST"
                             (url.set_Host
                                (http.removeEmptyPort (url.Host target)) target)
                             [] (json_Marshal (NewEventMessage cfg event)))).
  { unfold http.NewRequest. now rewrite Htarget. }
  rewrite (sendMessage_request cfg world event _ _ Hreq).
  change (http.Header_Set "Content-Type" "application/json" _) with req.
  now rewrite Hdo, Hclose.
Qed.

Lemma close_failure_after_send_witness :
  let cfg := Double.config in
  let world := Double.world_close_fails Double.payload_e1 in
  let target :=
    url.mkURL "https" "" None "outlook.office.com" "/webhook/abc" "" false
              "" "" in
  let resp := http.mkResponse 200 "1" in
  let err := otherError "close: connection reset" in
  let req :=
    http.mkRequest "POST" target [("Content-Type", "application/json")]
      (@json_Marshal Double.collaborators
         (@NewEventMessage Double.collaborators cfg Double.event_e1)) in
  webhookURL cfg <> ""
  /\ url.Parse (webhookURL cfg) = url.Ok target
  /\ client_Do world req = inl resp
  /\ Body_Close world resp = Some err
  /\ @main Double.collaborators cfg world []
     = mkExit 2 ["panic: close: connection reset"]
              [ReadStdin; HTTPDo req; CloseBody resp].
Proof.
  intros cfg world target resp err req.
  assert (Hw : webhookURL cfg <> "") by discriminate.
  split; [exact Hw |].
  split; [reflexivity |].
  split; [reflexivity |].
  split; [reflexivity |].
  exact (@close_failure_after_send Double.collaborators cfg world
           Double.payload_e1 Double.event_e1 target resp err
           Hw eq_refl eq_refl eq_refl eq_refl eq_refl eq_refl eq_refl).
Defined.

(** X9: of the six configuration variables the message reads two: two
    configurations with the same channel and the same dashboard give every
    event the same message, whatever their webhook URL, message prefix,
    icon URL and action name; the channel is copied into the message.  If
    they also have the same webhook URL, the whole invocation is the same:
    same effects, same exit status, same output on standard error. *)
Theorem message_reads_channel_and_dashboard {collaborators : Collaborators}
    (cfg1 cfg2 : Config) (event : types.Event) :
  channel cfg1 = channel cfg2 ->
  dashboard cfg1 = dashboard cfg2 ->
  NewEventMessage cfg1 event = NewEventMessage cfg2 event
  /\ Channel (NewEventMessage cfg1 event) = channel cfg1
  /\ (webhookURL cfg1 = webhookURL cfg2 ->
      forall (world : World) (args : list string),
        main cfg1 world args = main cfg2 world args).
Proof.
  intros Hc Hd. split; [| split; [reflexivity |]].
  - rewrite !NewEventMessage_eq. unfold getLink. now rewrite Hc, Hd.
  - intros Hw world args.
    destruct cfg1 as [w1 c1 p1 i1 a1 d1], cfg2 as [w2 c2 p2 i2 a2 d2].
    simpl in Hc, Hd, Hw. subst. reflexivity.
Qed.

Lemma message_reads_channel_and_dashboard_witness :
  let cfg1 := Double.config in
  let cfg2 :=
    flag_icon_url "https://example.com/other.png"
      (flag_action_name "Open" (flag_message_prefix "@here" Double.config)) in
  let world := Double.world_up Double.payload_e1 in
  channel cfg1 = channel cfg2
  /\ dashboard cfg1 = dashboard cfg2
  /\ webhookURL cfg1 = webhookURL cfg2
  /\ @NewEventMessage Double.collaborators cfg1 Double.event_e1
     = @NewEventMessage Double.collaborators cfg2 Double.event_e1
  /\ Channel (@NewEventMessage Double.collaborators cfg1 Double.event_e1)
     = "#general"
  /\ @main Double.collaborators cfg1 world []
     = @main Double.collaborators cfg2 world [].
Proof.
  intros cfg1 cfg2 world.
  split; [reflexivity | split; [reflexivity | split; [reflexivity |]]].
  destruct (@message_reads_channel_and_dashboard Double.collaborators
              cfg1 cfg2 Double.event_e1 eq_refl eq_refl)
    as (Hm & Hc & Hmain).
  split; [exact Hm | split; [exact Hc |]].
  exact (Hmain eq_refl world []).
Defined.

(** * The link of a plain event path *)

Module link_facts.

Import url.

Lemma str_app_assoc (a b c : string) : (a ++ b) ++ c = a ++ b ++ c.
Proof. induction a as [| x a IH]; simpl; [reflexivity | now rewrite IH]. Qed.

Lemma str_app_nil_r (a : string) : a ++ "" = a.
Proof. induction a as [| x a IH]; simpl; [reflexivity | now rewrite IH]. Qed.

(** A byte that is not escaped in a path is none of [#], [?], [%], and is
    no control character. *)
Lemma safe_byte (c : ascii) :
  shouldEscape c encodePath = false ->
  Ascii.eqb c "#" = false /\ Ascii.eqb c "?" = false
  /\ Ascii.eqb c "%" = false
  /\ ((byte_val c <? byte_val " ")%N || Ascii.eqb c "127") = false.
Proof.
  destruct c as [b0 b1 b2 b3 b4 b5 b6 b7].
  destruct b0, b1, b2, b3, b4, b5, b6, b7; vm_compute;
    intros H; try discriminate H; repeat split.
Qed.

Lemma path_safe_cons (c : ascii) (s : string) :
  path_safe (String c s) = true ->
  shouldEscape c encodePath = false /\ path_safe s = true.
Proof.
  unfold path_safe; simpl. intros H. apply andb_prop in H as [Hc Hs].
  apply negb_true_iff in Hc. now split.
Qed.

Lemma safe_no_control (s : string) :
  path_safe s = true -> stringContainsCTLByte s = false.
Proof.
  induction s as [| c s IH]; [reflexivity |]. intros H.
  apply path_safe_cons in H as [Hc Hs].
  destruct (safe_byte c Hc) as (_ & _ & _ & Hctl).
  cbn [stringContainsCTLByte]. rewrite Hctl. now apply IH.
Qed.

(** A byte that no safe byte equals does not occur in a safe string. *)
Lemma safe_index (s : string) (sep : ascii) (i : nat) :
  (forall c, shouldEscape c encodePath = false -> Ascii.eqb c sep = false) ->
  path_safe s = true ->
  strings.index_from i s (String sep "") = None.
Proof.
  intros Hsep. revert i. induction s as [| c s IH]; intros i H.
  - reflexivity.
  - apply path_safe_cons in H as [Hc Hs].
    simpl. rewrite (Hsep c Hc). simpl. now apply IH.
Qed.

Lemma safe_count_query (s : string) :
  path_safe s = true -> strings.CountByte s "?" = 0.
Proof.
  induction s as [| c s IH]; [reflexivity |]. intros H.
  apply path_safe_cons in H as [Hc Hs].
  destruct (safe_byte c Hc) as (_ & Hq & _).
  simpl. rewrite Hq. now apply IH.
Qed.

Lemma safe_unescape_check (s : string) (n : nat) :
  path_safe s = true ->
  unescape_check encodePath s n false = Ok (n, false).
Proof.
  induction s as [| c s IH]; [reflexivity |]. intros H.
  apply path_safe_cons in H as [Hc Hs].
  destruct (safe_byte c Hc) as (_ & _ & Hp & _).
  rewrite (url_facts.unescape_check_plain c s n Hp). now apply IH.
Qed.

(** A safe path is its own decoding ... *)
Lemma safe_unescape (s : string) :
  path_safe s = true -> unescape s encodePath = Ok s.
Proof.
  intros H. unfold unescape. now rewrite (safe_unescape_check s 0 H).
Qed.

Lemma safe_escape_count (s : string) :
  path_safe s = true -> escape_count encodePath s = (0, 0).
Proof.
  induction s as [| c s IH]; [reflexivity |]. intros H.
  apply path_safe_cons in H as [Hc Hs].
  simpl. now rewrite (IH Hs), Hc.
Qed.

(** ... and its own encoding. *)
Lemma safe_escape (s : string) :
  path_safe s = true -> escape s encodePath = s.
Proof.
  intros H. unfold escape. now rewrite (safe_escape_count s H).
Qed.

Lemma rooted_not_star (s : string) :
  rooted s = true -> String.eqb s "*" = false.
Proof.
  intros H. destruct (url_facts.rooted_slash s H) as (t & -> & _).
  reflexivity.
Qed.

Lemma EscapedPath_safe (scheme opaque host query fragment : string)
    (user : option Userinfo) (force : bool) (path : string) :
  path_safe path = true -> rooted path = true ->
  EscapedPath (mkURL scheme opaque user host path "" force query fragment)
  = path.
Proof.
  intros Hsafe Hrooted. unfold EscapedPath. simpl.
  now rewrite (rooted_not_star path Hrooted), (safe_escape path Hsafe).
Qed.

(** [setPath] with a safe path stores it and leaves [RawPath] empty. *)
Lemma setPath_safe (u : URL) (path : string) :
  path_safe path = true ->
  setPath u path = Ok (set_RawPath "" (set_Path path u)).
Proof.
  intros H. unfold setPath. rewrite (safe_unescape path H). simpl.
  now rewrite (safe_escape path H), String.eqb_refl.
Qed.

(** [url.Parse] on a safe path that starts with one slash. *)
Lemma Parse_safe_rooted (path : string) :
  path_safe path = true -> rooted path = true ->
  Parse path = Ok (path_only path).
Proof.
  intros Hsafe Hrooted. unfold Parse, split, strings.Index.
  rewrite (safe_index path "#" 0
             (fun c Hc => proj1 (safe_byte c Hc)) Hsafe).
  unfold parse. rewrite (safe_no_control path Hsafe), andb_false_r.
  rewrite (rooted_not_star path Hrooted).
  destruct (url_facts.rooted_slash path Hrooted) as (t & Hpath & Ht).
  assert (Hscheme : getscheme path = Ok ("", path)) by (now subst path).
  rewrite Hscheme. cbn [bind]. cbv beta iota.
  rewrite (safe_count_query path Hsafe), andb_false_r.
  unfold split, strings.Index.
  rewrite (safe_index path "?" 0
             (fun c Hc => proj1 (proj2 (safe_byte c Hc))) Hsafe).
  assert (Hslash : strings.HasPrefix path "/" = true) by (now subst path).
  assert (Hslash2 : strings.HasPrefix path "//" = false).
  { subst path. exact Ht. }
  rewrite Hslash, Hslash2. cbn [negb andb]. cbv iota.
  rewrite andb_false_r. cbn [bind fst snd].
  rewrite (setPath_safe _ path Hsafe). reflexivity.
Qed.

(** Resolving a safe rooted path without dot segments: the base gives the
    scheme, the user information and the host, the reference gives the
    path, and the base's path, query and fragment are dropped. *)
Lemma ResolveReference_safe (base : URL) (path : string) :
  path_safe path = true -> rooted path = true -> dot_free path = true ->
  ResolveReference base (path_only path)
  = mkURL (Scheme base) "" (User base) (Host base) path "" false "" "".
Proof.
  intros Hsafe Hrooted Hplain.
  destruct (url_facts.rooted_slash path Hrooted) as (t & Hpath & Ht).
  assert (Hslash : strings.HasPrefix path "/" = true) by (now subst path).
  assert (Hne : String.eqb path "" = false) by (now subst path).
  unfold ResolveReference, path_only. simpl. rewrite Hne. simpl.
  rewrite (EscapedPath_safe "" "" "" "" "" None false path Hsafe Hrooted).
  rewrite (url_facts.resolvePath_absolute_plain _ path Hslash Hplain).
  unfold setPath_ignore. now rewrite (setPath_safe _ path Hsafe).
Qed.

End link_facts.

Module String_facts.

Import url.

Lemma IndexByte_from_ge (s : string) (c : ascii) (k i : nat) :
  IndexByte_from k s c = Some i -> k <= i.
Proof.
  revert k. induction s as [| d s IH]; intros k; simpl; [discriminate |].
  destruct (Ascii.eqb d c).
  - intros [= <-]. apply Nat.le_refl.
  - intros H. apply IH in H. apply Nat.le_trans with (S k); auto.
Qed.

(** Printing a URL that has a safe rooted path and nothing else. *)
Lemma String_path_only (path : string) :
  path_safe path = true -> rooted path = true ->
  String_ (mkURL "" "" None "" path "" false "" "") = path.
Proof.
  intros Hsafe Hrooted. unfold String_.
  rewrite (link_facts.EscapedPath_safe "" "" "" "" "" None false path
             Hsafe Hrooted).
  destruct (url_facts.rooted_slash path Hrooted) as (t & -> & _).
  cbn -[IndexByte_from strings.take].
  destruct (IndexByte_from 0 (String "/" t) ":") as [i |] eqn:Hi;
    [| reflexivity].
  destruct i as [| i]; [| reflexivity].
  simpl in Hi. apply IndexByte_from_ge in Hi. inversion Hi.
Qed.

(** Printing a URL that has a scheme, a host and a safe rooted path. *)
Lemma String_origin_path (scheme host path : string)
    (user : option Userinfo) :
  scheme <> "" -> host <> "" ->
  path_safe path = true -> rooted path = true ->
  let u := mkURL scheme "" user host path "" false "" "" in
  String_ u = origin u ++ path.
Proof.
  intros Hs Hh Hsafe Hrooted u. subst u. unfold String_, origin.
  rewrite (link_facts.EscapedPath_safe scheme "" host "" "" user false path
             Hsafe Hrooted).
  destruct (url_facts.rooted_slash path Hrooted) as (t & -> & _).
  destruct scheme as [| x scheme]; [contradiction |].
  destruct host as [| y host]; [contradiction |].
  cbn -[escape Userinfo_String append String.length].
  destruct user as [ui |];
    cbn [append String.length Nat.eqb];
    rewrite ?link_facts.str_app_assoc; cbn [append];
    rewrite ?link_facts.str_app_assoc; reflexivity.
Qed.

End String_facts.

(** X10: when the dashboard URL parses to a URL with a scheme and a host,
    and the event's path starts with one slash, has no dot segment and is
    made of bytes that need no escaping, the link is the dashboard's
    [scheme://userinfo@host] followed by the event's path: the path, the
    query and the fragment of the dashboard URL are dropped. *)
Theorem link_is_origin_and_path {collaborators : Collaborators}
    (cfg : Config) (event : types.Event) (base : url.URL) :
  url.Parse (dashboard cfg) = url.Ok base ->
  url.Scheme base <> "" ->
  url.Host base <> "" ->
  path_safe (Event_URIPath event) = true ->
  rooted (Event_URIPath event) = true ->
  dot_free (Event_URIPath event) = true ->
  getLink cfg event = origin base ++ Event_URIPath event.
Proof.
  intros Hbase Hs Hh Hsafe Hrooted Hplain.
  unfold getLink, resolveLink.
  rewrite Hbase, (link_facts.Parse_safe_rooted _ Hsafe Hrooted).
  rewrite (link_facts.ResolveReference_safe base _ Hsafe Hrooted Hplain).
  now rewrite (String_facts.String_origin_path _ _ _ (url.User base)
                 Hs Hh Hsafe Hrooted).
Qed.

Lemma link_is_origin_and_path_witness :
  let cfg :=
    flag_dashboard "https://dash.example.com/sensu/?tab=events#top"
                   Double.config in
  let base :=
    url.mkURL "https" "" None "dash.example.com" "/sensu/" "" false
              "tab=events" "top" in
  let path := @Event_URIPath Double.collaborators Double.event_e1 in
  url.Parse (dashboard cfg) = url.Ok base
  /\ url.Scheme base <> "" /\ url.Host base <> ""
  /\ path_safe path = true /\ rooted path = true /\ dot_free path = true
  /\ @getLink Double.collaborators cfg Double.event_e1
     = "https://dash.example.com/api/core/v2/namespaces/default/events/e1/disk".
Proof.
  intros cfg base path.
  assert (Hs : url.Scheme base <> "") by discriminate.
  assert (Hh : url.Host base <> "") by discriminate.
  split; [reflexivity |].
  split; [exact Hs | split; [exact Hh |]].
  split; [reflexivity | split; [reflexivity | split; [reflexivity |]]].
  exact (@link_is_origin_and_path Double.collaborators cfg Double.event_e1
           base eq_refl Hs Hh eq_refl eq_refl eq_refl).
Defined.

(** X11: without a dashboard (the variable's default, the empty string),
    the link of an event whose path starts with one slash, has no dot
    segment and needs no escaping is the path itself, a relative
    reference without scheme or host. *)
Theorem link_without_dashboard {collaborators : Collaborators}
    (cfg : Config) (event : types.Event) :
  dashboard cfg = "" ->
  path_safe (Event_URIPath event) = true ->
  rooted (Event_URIPath event) = true ->
  dot_free (Event_URIPath event) = true ->
  getLink cfg event = Event_URIPath event.
Proof.
  intros Hd Hsafe Hrooted Hplain.
  unfold getLink, resolveLink. rewrite Hd.
  change (url.Parse "") with (url.Ok url.zero).
  rewrite (link_facts.Parse_safe_rooted _ Hsafe Hrooted).
  rewrite (link_facts.ResolveReference_safe url.zero _ Hsafe Hrooted Hplain).
  now apply String_facts.String_path_only.
Qed.

Lemma link_without_dashboard_witness :
  let cfg := configureRootCommand "https://outlook.office.com/webhook/abc" in
  let path := @Event_URIPath Double.collaborators Double.event_e1 in
  dashboard cfg = ""
  /\ path_safe path = true /\ rooted path = true /\ dot_free path = true
  /\ @getLink Double.collaborators cfg Double.event_e1
     = "/api/core/v2/namespaces/default/events/e1/disk".
Proof.
  intros cfg path.
  split; [reflexivity |].
  split; [reflexivity | split; [reflexivity | split; [reflexivity |]]].
  exact (@link_without_dashboard Double.collaborators cfg Double.event_e1
           eq_refl eq_refl eq_refl eq_refl).
Defined.

(** * The handler of [main.go] *)

Section MainGoFacts.

Context {collaborators : Collaborators}.

Lemma assign_keeps_dashboard (f : MainGo.flag) (v : string)
    (c : MainGo.Config) :
  MainGo.dashboard (MainGo.assign f v c) = MainGo.dashboard c.
Proof. now destruct f. Qed.

Lemma parse_flags_keeps_dashboard (line : list (MainGo.flag * string))
    (c : MainGo.Config) :
  MainGo.dashboard (MainGo.parse_flags line c) = MainGo.dashboard c.
Proof.
  revert c. induction line as [| [f v] line IH]; intros c; [reflexivity |].
  unfold MainGo.parse_flags in *. simpl.
  now rewrite IH, assign_keeps_dashboard.
Qed.

End MainGoFacts.

(** X13: in [main.go] the ["dashboard"] flag is bound to the action-name
    variable: its value lands there, and the dashboard stays the zero URL
    on every command line.  The link of an event whose path starts with
    one slash, has no dot segment and needs no escaping is therefore the
    bare path, which is both the text of the message and the uri of its
    target; the color is ["red"] whatever the status. *)
Theorem main_go_dashboard_flag_is_lost {collaborators : Collaborators}
    (env_webhook : string) (line : list (MainGo.flag * string))
    (event : types.Event) :
  path_safe (Event_URIPath event) = true ->
  rooted (Event_URIPath event) = true ->
  dot_free (Event_URIPath event) = true ->
  let cfg :=
    MainGo.parse_flags line (MainGo.configureRootCommand env_webhook) in
  MainGo.dashboard cfg = url.zero
  /\ (forall v c,
        MainGo.actionName (MainGo.assign MainGo.dashboard_flag v c) = v)
  /\ MainGo.NewEventMessage cfg event
     = Returned
         (MainGo.mkMessage "red" (Event_URIPath event)
            (MainGo.channel cfg) (MainGo.botName cfg)
            [MainGo.mkSection (MainGo.iconURL cfg)
               (types.Check_Output (types.Event_Check event))]
            [mkPotentialAction "OpenUri" "View in Sensu"
               [mkTarget "default" (Event_URIPath event)]]).
Proof.
  intros Hsafe Hrooted Hplain cfg.
  assert (Hd : MainGo.dashboard cfg = url.zero).
  { subst cfg. now rewrite parse_flags_keeps_dashboard. }
  split; [exact Hd | split; [reflexivity |]].
  unfold MainGo.NewEventMessage.
  rewrite (link_facts.Parse_safe_rooted _ Hsafe Hrooted), Hd.
  rewrite (link_facts.ResolveReference_safe url.zero _ Hsafe Hrooted Hplain).
  change (url.mkURL (url.Scheme url.zero) "" (url.User url.zero)
                    (url.Host url.zero) (Event_URIPath event) "" false "" "")
    with (url.mkURL "" "" None "" (Event_URIPath event) "" false "" "").
  now rewrite (String_facts.String_path_only _ Hsafe Hrooted).
Qed.

Lemma main_go_dashboard_flag_is_lost_witness :
  let line := [(MainGo.dashboard_flag, "https://dash.example.com/");
               (MainGo.channel_flag, "#ops")] in
  let cfg :=
    MainGo.parse_flags line
      (MainGo.configureRootCommand "https://outlook.office.com/webhook/abc") in
  let path := @Event_URIPath Double.collaborators Double.event_e1 in
  path_safe path = true /\ rooted path = true /\ dot_free path = true
  /\ MainGo.dashboard cfg = url.zero
  /\ MainGo.actionName cfg = "https://dash.example.com/"
  /\ @MainGo.NewEventMessage Double.collaborators cfg Double.event_e1
     = Returned
         (MainGo.mkMessage "red"
            "/api/core/v2/namespaces/default/events/e1/disk" "#ops" ""
            [MainGo.mkSection
               "http://s3-us-west-2.amazonaws.com/sensuapp.org/sensu.png"
               "disk full"]
            [mkPotentialAction "OpenUri" "View in Sensu"
               [mkTarget "default"
                  "/api/core/v2/namespaces/default/events/e1/disk"]]).
Proof.
  intros line cfg path.
  split; [reflexivity | split; [reflexivity | split; [reflexivity |]]].
  destruct (@main_go_dashboard_flag_is_lost Double.collaborators
              "https://outlook.office.com/webhook/abc" line Double.event_e1
              eq_refl eq_refl eq_refl) as (Hd & _ & Hm).
  split; [exact Hd |].
  split; [reflexivity | exact Hm].
Defined.
